(** * ts-result: a shallow embedding of [Result], [AsyncResult] and [Result.run]

    The repository ships two designs of the same abstraction:

    - the plain design (module [Simple] below), where an exception thrown by
      a callback propagates out of the combinator, and
    - the checked-error design (module [Checked]), where every [Err] carries
      an [ErrorHolder] and exceptions thrown by callbacks are captured as
      unchecked errors.

    JavaScript values are dynamically typed and the code inspects them at run
    time ([isResult], [instanceof]), so the embedding works over one universe
    of values, [JsVal].  Callbacks are functions in a state-and-exception
    monad [Js], generators are resumption trees. *)

From Stdlib Require Import List ZArith String Bool Lia.
Import ListNotations.
Local Open Scope string_scope.

Set Implicit Arguments.
Set Warnings "-register-all".

(* ================================================================== *)
(** ** Values *)

(** [ErrorHolder.ts]: the [type] field of the two holder classes. *)
Inductive HolderType : Type :=
| CHECKED_ERROR
| UNCHECKED_ERROR.

(** The values the code manipulates.  [VResult] is an instance of the
    [_Result] class; its [data] is the pair of the [isOk] flag and the
    [value] field. *)
Inductive JsVal : Type :=
| VUndefined
| VBool (b : bool)
| VNum (n : Z)
| VStr (s : string)
| VArray (items : list JsVal)
| VObject (fields : list (string * JsVal))
| VError (name message : string)
| VAggregateError (errors : list JsVal)
| VErrorHolder (type : HolderType) (error : JsVal)
| VResult (r : Result)
with Result : Type :=
| MkResult (isOk : bool) (value : JsVal).

Definition isOk (r : Result) : bool :=
  match r with MkResult b _ => b end.

Definition value (r : Result) : JsVal :=
  match r with MkResult _ v => v end.

(** [ErrorHolder.ts] *)
Definition makeUncheckedErrorHolder (error : JsVal) : JsVal :=
  VErrorHolder UNCHECKED_ERROR error.

Definition makeCheckedErrorHolder (error : JsVal) : JsVal :=
  VErrorHolder CHECKED_ERROR error.

Definition isCheckedErrorHolder (it : JsVal) : bool :=
  match it with VErrorHolder CHECKED_ERROR _ => true | _ => false end.

Definition isUncheckedErrorHolder (it : JsVal) : bool :=
  match it with VErrorHolder UNCHECKED_ERROR _ => true | _ => false end.

(** [isResult(it)] is [it instanceof _Result]. *)
Definition isResult (it : JsVal) : bool :=
  match it with VResult _ => true | _ => false end.

(** The test [isResult(value) && !value.data.isOk] of [finally_] and [run]. *)
Definition isErrResult (it : JsVal) : bool :=
  match it with VResult r => negb (isOk r) | _ => false end.

(* ================================================================== *)
(** ** The effect monad of callbacks

    A JavaScript function may read and write the variables it closes over
    and may throw.  [Js S A] is a computation over a store [S] that either
    returns an [A] or throws a value. *)

Inductive Outcome (A : Type) : Type :=
| Returns (a : A)
| Throws (e : JsVal).

Arguments Returns {A} a.
Arguments Throws {A} e.

Definition Js (S A : Type) : Type := S -> Outcome A * S.

Definition ret {S A} (a : A) : Js S A := fun s => (Returns a, s).

Definition throw {S A} (e : JsVal) : Js S A := fun s => (Throws e, s).

Definition bind {S A B} (m : Js S A) (f : A -> Js S B) : Js S B :=
  fun s =>
    match m s with
    | (Returns a, s') => f a s'
    | (Throws e, s') => (Throws e, s')
    end.

(** [try { m } catch (error) { handler(error) }] *)
Definition try_catch_ {S A} (m : Js S A) (handler : JsVal -> Js S A) : Js S A :=
  fun s =>
    match m s with
    | (Returns a, s') => (Returns a, s')
    | (Throws e, s') => handler e s'
    end.

Declare Scope js_scope.
Delimit Scope js_scope with js.
Notation "x <- m ;; k" := (bind m (fun x => k))
  (at level 61, m at next level, right associativity) : js_scope.
Notation "m ;;; k" := (bind m (fun _ => k))
  (at level 61, right associativity) : js_scope.

(** A callback taking one argument, and the optional second callback of
    [then_] ([typeof errCb === "function"] is [Some]). *)
Definition Callback (S : Type) : Type := JsVal -> Js S JsVal.

(* ================================================================== *)
(** ** Generators

    [Result.run] drives a generator object through [gen.next(v)] and
    [gen.return(v)].  A generator body is modelled by the tree of its
    possible executions: it completes, or suspends at a [yield] and waits to
    be resumed, or touches the variables it closes over (the store [W]).
    [try]/[catch]/[finally] are operations on such trees. *)

(** How a suspended generator is resumed: [gen.next(v)] makes the [yield]
    evaluate to [v]; [gen.return(v)] makes it behave as [return v]. *)
Inductive Resumption : Type :=
| RNext (v : JsVal)
| RReturn (v : JsVal).

(** How a piece of generator code completes: it falls through with a value,
    executes [return v], or throws. *)
Inductive Completion : Type :=
| CNormal (v : JsVal)
| CReturn (v : JsVal)
| CThrow (e : JsVal).

(** The result object of [gen.next] and [gen.return]. *)
Record IteratorResult : Type := MkIteratorResult {
  ir_value : JsVal;
  ir_done : bool
}.

Section Generators.
Variable W : Type.

Inductive code : Type :=
| Complete (c : Completion)
| Yield (y : JsVal) (k : Resumption -> code)
| Mutate (f : W -> W) (next : code)
| Inspect (k : W -> code).

(** [first; rest]: [rest] runs when [first] falls through. *)
Fixpoint seq (first : code) (rest : JsVal -> code) : code :=
  match first with
  | Complete (CNormal v) => rest v
  | Complete c => Complete c
  | Yield y k => Yield y (fun r => seq (k r) rest)
  | Mutate f next => Mutate f (seq next rest)
  | Inspect k => Inspect (fun w => seq (k w) rest)
  end.

(** [try { body } finally { fin }]: whichever way [body] completes, [fin]
    runs; the completion of [body] stands unless [fin] itself returns or
    throws.  A [gen.return] at a [yield] of [body] is a [CReturn] there, so
    it runs [fin] as well. *)
Fixpoint try_finally (body : code) (fin : code) : code :=
  match body with
  | Complete c => seq fin (fun _ => Complete c)
  | Yield y k => Yield y (fun r => try_finally (k r) fin)
  | Mutate f next => Mutate f (try_finally next fin)
  | Inspect k => Inspect (fun w => try_finally (k w) fin)
  end.

(** [try { body } catch (e) { handler(e) }]: only a thrown value reaches
    the handler; a [CReturn] passes through. *)
Fixpoint try_catch (body : code) (handler : JsVal -> code) : code :=
  match body with
  | Complete (CThrow e) => handler e
  | Complete c => Complete c
  | Yield y k => Yield y (fun r => try_catch (k r) handler)
  | Mutate f next => Mutate f (try_catch next handler)
  | Inspect k => Inspect (fun w => try_catch (k w) handler)
  end.

(** [yield* result].  [_Result.prototype[Symbol.iterator]] is
    [return yield self]: the delegate yields the Result itself, then
    returns what it is resumed with; when the outer generator is asked to
    return, the delegate finishes and the [yield*] becomes a [return]. *)
Definition yield_star (self : JsVal) : code :=
  Yield self (fun r =>
    match r with
    | RNext v => Complete (CNormal v)
    | RReturn v => Complete (CReturn v)
    end).

(** Running code up to its next suspension point. *)
Inductive Progress : Type :=
| Completed (c : Completion)
| Suspended (y : JsVal) (k : Resumption -> code).

Fixpoint exec (c : code) (w : W) : Progress * W :=
  match c with
  | Complete cmp => (Completed cmp, w)
  | Yield y k => (Suspended y k, w)
  | Mutate f next => exec next (f w)
  | Inspect k => exec (k w) w
  end.

(** The generator object. *)
Inductive GenState : Type :=
| SuspendedStart (body : code)
| SuspendedYield (k : Resumption -> code)
| GenCompleted.

Definition resume (c : code) : Js (GenState * W) IteratorResult :=
  fun s =>
    match exec c (snd s) with
    | (Suspended y k, w') =>
        (Returns (MkIteratorResult y false), (SuspendedYield k, w'))
    | (Completed (CNormal _), w') =>
        (Returns (MkIteratorResult VUndefined true), (GenCompleted, w'))
    | (Completed (CReturn v), w') =>
        (Returns (MkIteratorResult v true), (GenCompleted, w'))
    | (Completed (CThrow e), w') => (Throws e, (GenCompleted, w'))
    end.

(** [gen.next(v)] *)
Definition gen_next (v : JsVal) : Js (GenState * W) IteratorResult :=
  fun s =>
    match fst s with
    | SuspendedStart body => resume body s
    | SuspendedYield k => resume (k (RNext v)) s
    | GenCompleted => (Returns (MkIteratorResult VUndefined true), s)
    end.

(** [gen.return(v)] *)
Definition gen_return (v : JsVal) : Js (GenState * W) IteratorResult :=
  fun s =>
    match fst s with
    | SuspendedStart _ =>
        (Returns (MkIteratorResult v true), (GenCompleted, snd s))
    | SuspendedYield k => resume (k (RReturn v)) s
    | GenCompleted => (Returns (MkIteratorResult v true), s)
    end.

(** The variables of one call of [Result.run]: the generator [gen] with
    the store its body closes over, and the flag [done]. *)
Record RunState : Type := MkRunState {
  gen : GenState;
  done : bool;
  world : W
}.

Definition onGen {A} (m : Js (GenState * W) A) : Js RunState A :=
  fun s =>
    match m (gen s, world s) with
    | (o, (g, w)) => (o, MkRunState g (done s) w)
    end.

Definition setDone (b : bool) : Js RunState unit :=
  fun s => (Returns tt, MkRunState (gen s) b (world s)).

(** What the body does when every yielded value that is not an [Err] is
    answered with its payload, as a runner does: it ends by itself, or it
    reaches a [yield] of an [Err]. *)
Inductive Driven : Type :=
| Ended (c : Completion)
| YieldedErr (y : JsVal) (k : Resumption -> code).

Definition payload (y : JsVal) : JsVal :=
  match y with VResult r => value r | _ => y end.

Fixpoint drive (c : code) (w : W) : Driven * W :=
  match c with
  | Complete cmp => (Ended cmp, w)
  | Yield y k =>
      if isErrResult y then (YieldedErr y k, w)
      else drive (k (RNext (payload y))) w
  | Mutate f next => drive next (f w)
  | Inspect k => drive (k w) w
  end.

End Generators.

Arguments Complete {W} c.
Arguments GenCompleted {W}.
Arguments Completed {W} c.
Arguments Ended {W} c.
Arguments yield_star {W} self.

(* ================================================================== *)
(** ** The plain design: [Result.ts] without [ErrorHolder]s *)

Module Simple.

Definition Ok (arg : JsVal) : Result := MkResult true arg.

Definition Err (error : JsVal) : Result := MkResult false error.

(** [isResult(it) ? new _Result({ ...it.data }) : Ok(it)] *)
Definition toResult (it : JsVal) : Result :=
  match it with
  | VResult r => MkResult (isOk r) (value r)
  | _ => Ok it
  end.

Section Methods.
Context {S : Type}.
Local Open Scope js_scope.

Definition valueOrFallback (this : Result) (getFallback : Callback S)
  : Js S JsVal :=
  if isOk this then ret (value this) else getFallback (value this).

Definition valueOrThrow (this : Result) : Js S JsVal :=
  if isOk this then ret (value this) else throw (value this).

Definition then_ (this : Result) (okCb : Callback S)
    (errCb : option (Callback S)) : Js S Result :=
  if isOk this then
    it <- okCb (value this) ;; ret (toResult it)
  else
    match errCb with
    | Some errCb => it <- errCb (value this) ;; ret (toResult it)
    | None => ret (toResult (VResult this))
    end.

Definition catch_ (this : Result) (cb : Callback S) : Js S Result :=
  if isOk this then ret (toResult (VResult this))
  else it <- cb (value this) ;; ret (toResult it).

End Methods.

Section Run.
Variable W : Type.
Local Open Scope js_scope.

(** The callback [Result.run] passes to [returnResult.then_]. *)
Definition run_callback : Callback (RunState W) :=
  fun v =>
    ir <- onGen (gen_next v) ;;
    (if isErrResult (ir_value ir) then
       setDone true ;;; _ <- onGen (gen_return (ir_value ir)) ;; ret tt
     else
       setDone (ir_done ir)) ;;;
    ret (ir_value ir).

(** [while (!done) { returnResult = returnResult.then_(...) }
    return returnResult;]  The loop is cut off after [fuel] tests of
    its condition; [None] is the cut-off. *)
Fixpoint run_loop (fuel : nat) (returnResult : Result) (s : RunState W)
  : option (Outcome Result * RunState W) :=
  match fuel with
  | O => None
  | Datatypes.S fuel' =>
      if done s then Some (Returns returnResult, s)
      else
        match then_ returnResult run_callback None s with
        | (Returns returnResult', s') => run_loop fuel' returnResult' s'
        | (Throws e, s') => Some (Throws e, s')
        end
  end.

(** [Result.run(fn)]; [fn] is given by the body of the generator
    function, and the outcome comes with the final store. *)
Definition run (fuel : nat) (fn : code W) (w : W)
  : option (Outcome Result * W) :=
  match run_loop fuel (Ok VUndefined) (MkRunState (SuspendedStart fn) false w) with
  | Some (o, s) => Some (o, world s)
  | None => None
  end.

End Run.

End Simple.

(* ================================================================== *)
(** ** The checked-error design: [Result.ts] with [ErrorHolder]s *)

Module Checked.

Definition Ok (arg : JsVal) : Result := MkResult true arg.

Definition Err (error : JsVal) : Result :=
  MkResult false (makeCheckedErrorHolder error).

Definition ErrUnchecked (error : JsVal) : Result :=
  MkResult false (makeUncheckedErrorHolder error).

(** [isResult(it) ? it : Ok(it)] *)
Definition toResult (it : JsVal) : Result :=
  match it with
  | VResult r => r
  | _ => Ok it
  end.

Section Methods.
Context {S : Type}.
Local Open Scope js_scope.

Definition valueOrFallback (this : Result) (getFallback : Callback S)
  : Js S JsVal :=
  if isOk this then ret (value this) else getFallback (value this).

Definition then_ (this : Result) (okCb : Callback S)
    (errCb : option (Callback S)) : Js S Result :=
  try_catch_
    (if isOk this then
       it <- okCb (value this) ;; ret (toResult it)
     else
       match errCb with
       | Some errCb => it <- errCb (value this) ;; ret (toResult it)
       | None => ret this
       end)
    (fun error => ret (ErrUnchecked error)).

Definition catch_ (this : Result) (cb : Callback S) : Js S Result :=
  try_catch_
    (if isOk this then ret this
     else it <- cb (value this) ;; ret (toResult it))
    (fun error => ret (ErrUnchecked error)).

Definition finally_ (this : Result) (cb : Js S JsVal) : Js S Result :=
  let fn : Callback S := fun _ =>
    newResult <- cb ;;
    ret (if isErrResult newResult then newResult else VResult this) in
  then_ this fn (Some fn).

(** [Result.compose]: the implementation [c(...fns)].  The non-empty
    argument list is the first function and the rest; the functions
    return Results. *)
Definition ResultFn : Type := JsVal -> Js S Result.

Definition asCallback (fn : ResultFn) : Callback S :=
  fun v => r <- fn v ;; ret (VResult r).

Fixpoint c_loop (restFns : list ResultFn) (result : Result) : Js S Result :=
  match restFns with
  | [] => ret result
  | fn :: restFns' =>
      result' <- then_ result (asCallback fn) None ;; c_loop restFns' result'
  end.

Definition c (fn : ResultFn) (restFns : list ResultFn) : ResultFn :=
  fun v => result <- fn v ;; c_loop restFns result.

(** The chain the documentation of [compose] describes:
    [f1(x).then_(f2).then_(...).then_(fn)], built from the last [then_]
    inwards; [later] lists the functions after the first, last one
    first. *)
Fixpoint thenChained (f1 : ResultFn) (later : list ResultFn) : ResultFn :=
  match later with
  | [] => f1
  | fn :: earlier =>
      fun x => r <- thenChained f1 earlier x ;; then_ r (asCallback fn) None
  end.

End Methods.

(** [Result.all] *)
Fixpoint all_loop (okValues : list JsVal) (results : list Result) : Result :=
  match results with
  | [] => Ok (VArray okValues)
  | result :: rest =>
      if isOk result then all_loop (okValues ++ [value result]) rest
      else result
  end.

Definition all (results : list Result) : Result := all_loop [] results.

(** [Result.any] *)
Fixpoint any_loop (errValues : list JsVal) (results : list Result) : Result :=
  match results with
  | [] => Err (VAggregateError errValues)
  | result :: rest =>
      if isOk result then result
      else any_loop (errValues ++ [value result]) rest
  end.

Definition any (results : list Result) : Result := any_loop [] results.

Section Run.
Variable W : Type.
Local Open Scope js_scope.

(** The callback [Result.run] passes to [returnResult.then_]. *)
Definition run_callback : Callback (RunState W) :=
  fun v =>
    try_catch_
      (ir <- onGen (gen_next v) ;;
       (if isErrResult (ir_value ir) then
          setDone true ;;; _ <- onGen (gen_return (ir_value ir)) ;; ret tt
        else
          setDone (ir_done ir)) ;;;
       ret (ir_value ir))
      (fun error => setDone true ;;; ret (VResult (ErrUnchecked error))).

(** [while (!done) { returnResult = returnResult.then_(...) }
    return returnResult;]  The loop is cut off after [fuel] tests of
    its condition; [None] is the cut-off. *)
Fixpoint run_loop (fuel : nat) (returnResult : Result) (s : RunState W)
  : option (Outcome Result * RunState W) :=
  match fuel with
  | O => None
  | Datatypes.S fuel' =>
      if done s then Some (Returns returnResult, s)
      else
        match then_ returnResult run_callback None s with
        | (Returns returnResult', s') => run_loop fuel' returnResult' s'
        | (Throws e, s') => Some (Throws e, s')
        end
  end.

(** [Result.run(fn)]; [fn] is given by the body of the generator
    function, and the outcome comes with the final store. *)
Definition run (fuel : nat) (fn : code W) (w : W)
  : option (Outcome Result * W) :=
  match run_loop fuel (Ok VUndefined) (MkRunState (SuspendedStart fn) false w) with
  | Some (o, s) => Some (o, world s)
  | None => None
  end.

End Run.

End Checked.

(* ================================================================== *)
(** ** [AsyncResult.ts], the design with a separate rejection channel

    An [AsyncResult] wraps a promise of a [Result].  What the combinators
    compute depends on how that promise settles, not on when, so a promise
    is represented by its settlement. *)

Inductive Promise (A : Type) : Type :=
| Fulfilled (a : A)
| Rejected (reason : JsVal).

Arguments Fulfilled {A} a.
Arguments Rejected {A} reason.

(** The elements of the array [Promise.allSettled] fulfils with:
    [{ status: "fulfilled", value }] or [{ status: "rejected", reason }]. *)
Inductive PromiseSettledResult (A : Type) : Type :=
| StatusFulfilled (a : A)
| StatusRejected (reason : JsVal).

Arguments StatusFulfilled {A} a.
Arguments StatusRejected {A} reason.

Module Async.

Section Promises.
Context {S : Type}.

(** The promise a handler of [then] produces: fulfilled with what the
    handler returns, rejected with what it throws. *)
Definition settle {B} (r : Outcome B * S) : Promise B * S :=
  match r with
  | (Returns b, s') => (Fulfilled b, s')
  | (Throws e, s') => (Rejected e, s')
  end.

(** [promise.then(onfulfilled, onrejected)]; without [onrejected] a
    rejection passes to the new promise. *)
Definition promise_then {A B} (promise : Promise A)
    (onfulfilled : A -> Js S B) (onrejected : option (JsVal -> Js S B))
  : S -> Promise B * S :=
  fun s =>
    match promise with
    | Fulfilled a => settle (onfulfilled a s)
    | Rejected reason =>
        match onrejected with
        | Some onrejected => settle (onrejected reason s)
        | None => (Rejected reason, s)
        end
    end.
End Promises.

(** [Promise.allSettled(promises)] *)
Definition Promise_allSettled {A} (promises : list (Promise A))
  : Promise (list (PromiseSettledResult A)) :=
  Fulfilled
    (map (fun p => match p with
                   | Fulfilled a => StatusFulfilled a
                   | Rejected reason => StatusRejected reason
                   end) promises).

Record AsyncResult : Type := MkAsyncResult {
  resultPromise : Promise Result
}.

(** [toResultPromise(it)] for a promise of a value: [await it], then the
    awaited Result itself, or [Ok(awaited)]. *)
Definition toResultPromise (it : Promise JsVal) : Promise Result :=
  match it with
  | Fulfilled awaited =>
      Fulfilled (match awaited with
                 | VResult r => r
                 | _ => Simple.Ok awaited
                 end)
  | Rejected reason => Rejected reason
  end.

(** The function [AsyncResult(arg)]. *)
Definition AsyncResult_ (arg : Promise JsVal) : AsyncResult :=
  MkAsyncResult (toResultPromise arg).

(** [valueOrFallback(errCb, rejectionCb?)] *)
Definition valueOrFallback {S} (this : AsyncResult) (errCb : Callback S)
    (rejectionCb : option (Callback S)) : S -> Promise JsVal * S :=
  promise_then (resultPromise this)
    (fun result => Simple.valueOrFallback result errCb)
    rejectionCb.

(** The record the callback of [allSettled] builds for one member. *)
Definition settledRecord (it : PromiseSettledResult Result) : JsVal :=
  match it with
  | StatusFulfilled r =>
      VObject [("type", VStr (if isOk r then "ok" else "err"));
               ("value", value r)]
  | StatusRejected reason =>
      VObject [("type", VStr "rejection"); ("value", reason)]
  end.

(** [AsyncResult.allSettled(asyncResults)] *)
Definition allSettled (asyncResults : list AsyncResult) : AsyncResult :=
  AsyncResult_
    (fst (promise_then
            (Promise_allSettled (map resultPromise asyncResults))
            (fun settledResults => ret (VArray (map settledRecord settledResults)))
            None tt)).

End Async.

(* ================================================================== *)
(** ** The remaining methods of the two [Result.ts] *)

(** A class, as far as the code uses it: the test [x instanceof type]. *)
Definition Class : Type := JsVal -> bool.

(** The [type] field of the two holder classes, as the string it is. *)
Definition holderTypeName (t : HolderType) : string :=
  match t with
  | CHECKED_ERROR => "CHECKED_ERROR"
  | UNCHECKED_ERROR => "UNCHECKED_ERROR"
  end.

Fixpoint lookupField (name : string) (fields : list (string * JsVal)) : JsVal :=
  match fields with
  | [] => VUndefined
  | (key, v) :: rest => if String.eqb key name then v else lookupField name rest
  end.

(** The exception of a property read on [undefined]. *)
Definition typeErrorReading (name : string) : JsVal :=
  VError "TypeError"
    ("Cannot read properties of undefined (reading '" ++ name ++ "')").

(** The property reads [it.type] and [it.error] of the checked-error
    files: the fields of an [ErrorHolder], a field of a plain object,
    [undefined] on any other value, an exception on [undefined]. *)
Definition getProperty {S : Type} (name : string) (it : JsVal) : Js S JsVal :=
  match it with
  | VUndefined => throw (typeErrorReading name)
  | VErrorHolder t error =>
      if String.eqb name "type" then ret (VStr (holderTypeName t))
      else if String.eqb name "error" then ret error
      else ret VUndefined
  | VObject fields => ret (lookupField name fields)
  | _ => ret VUndefined
  end.

(** [v === "..."] for a string literal. *)
Definition isString (literal : string) (v : JsVal) : bool :=
  match v with
  | VStr s => String.eqb s literal
  | _ => false
  end.

(** The plain design: [finally_], [catchInstanceOf], [thenChain],
    [Result.all], [Result.any], [Result.compose]. *)
Module SimpleMethods.

Section Methods.
Context {S : Type}.
Local Open Scope js_scope.

Definition finally_ (this : Result) (cb : Js S JsVal) : Js S Result :=
  let fn : Callback S := fun _ =>
    newResult <- cb ;;
    ret (if isErrResult newResult then newResult else VResult this) in
  Simple.then_ this fn (Some fn).

Definition catchInstanceOf (this : Result) (type : Class) (cb : Callback S)
  : Js S Result :=
  Simple.catch_ this (fun error =>
    if type error then cb error else ret (VResult this)).

(** A callback of [thenChain]: it takes the running value and the array
    of the values that came before. *)
Definition ChainCallback : Type := JsVal -> list JsVal -> Js S JsVal.

(** The function [thenChain] passes to [then_] for the callback [cb]; the
    array [history] it closes over is the first component of the store.
    [const currentHistory = [...history]; history.push(arg);
     return cb(arg, currentHistory);] *)
Definition chainStep (cb : ChainCallback) : Callback (list JsVal * S) :=
  fun arg hs =>
    let currentHistory := fst hs in
    match cb arg currentHistory (snd hs) with
    | (o, s') => (o, ((fst hs ++ [arg])%list, s'))
    end.

(** [cbs.reduce((result, cb) => result.then_(...), this)] *)
Fixpoint chainReduce (cbs : list ChainCallback) (result : Result)
  : Js (list JsVal * S) Result :=
  match cbs with
  | [] => ret result
  | cb :: cbs' =>
      result' <- Simple.then_ result (chainStep cb) None ;;
      chainReduce cbs' result'
  end.

Definition thenChain (this : Result) (cbs : list ChainCallback) : Js S Result :=
  fun s =>
    match chainReduce cbs this ([], s) with
    | (o, hs) => (o, snd hs)
    end.

(** [Result.compose], as in the checked-error file. *)
Definition ResultFn : Type := JsVal -> Js S Result.

Definition asCallback (fn : ResultFn) : Callback S :=
  fun v => r <- fn v ;; ret (VResult r).

Fixpoint c_loop (restFns : list ResultFn) (result : Result) : Js S Result :=
  match restFns with
  | [] => ret result
  | fn :: restFns' =>
      result' <- Simple.then_ result (asCallback fn) None ;;
      c_loop restFns' result'
  end.

Definition c (fn : ResultFn) (restFns : list ResultFn) : ResultFn :=
  fun v => result <- fn v ;; c_loop restFns result.

End Methods.

(** [Result.all] *)
Fixpoint all_loop (okValues : list JsVal) (results : list Result) : Result :=
  match results with
  | [] => Simple.Ok (VArray okValues)
  | result :: rest =>
      if isOk result then all_loop (okValues ++ [value result]) rest
      else result
  end.

Definition all (results : list Result) : Result := all_loop [] results.

(** [Result.any] *)
Fixpoint any_loop (errValues : list JsVal) (results : list Result) : Result :=
  match results with
  | [] => Simple.Err (VAggregateError errValues)
  | result :: rest =>
      if isOk result then result
      else any_loop (errValues ++ [value result]) rest
  end.

Definition any (results : list Result) : Result := any_loop [] results.

Section Nested.
Variable W : Type.
Local Open Scope js_scope.

(** The generator body written without [Result.run], as the documentation
    of [run] shows it: every [yield*] becomes a [then_] whose callback is
    the rest of the body. *)
Fixpoint nestedThen (c : code W) : Js W JsVal :=
  match c with
  | Complete (CNormal _) => ret VUndefined
  | Complete (CReturn v) => ret v
  | Complete (CThrow e) => throw e
  | Yield y k =>
      r <- Simple.then_ (Simple.toResult y)
             (fun a => nestedThen (k (RNext a))) None ;;
      ret (VResult r)
  | Mutate f next => fun w => nestedThen next (f w)
  | Inspect k => fun w => nestedThen (k w) w
  end.

End Nested.

End SimpleMethods.

(** The checked-error design: [valueOrThrow], [catchKnown],
    [catchKnownInstanceOf], [Result.wrap], [Result.fromFunc]. *)
Module CheckedMethods.

Section Methods.
Context {S : Type}.
Local Open Scope js_scope.

(** [throw this.data.value.error] *)
Definition valueOrThrow (this : Result) : Js S JsVal :=
  if isOk this then ret (value this)
  else error <- getProperty "error" (value this) ;; throw error.

(** [error.type === "UNCHECKED_ERROR" ? this : cb(error.error)] *)
Definition catchKnown (this : Result) (cb : Callback S) : Js S Result :=
  Checked.catch_ this (fun error =>
    type <- getProperty "type" error ;;
    if isString "UNCHECKED_ERROR" type then ret (VResult this)
    else known <- getProperty "error" error ;; cb known).

(** [error.type === "CHECKED_ERROR" && error.error instanceof type
     ? cb(error.error) : this] *)
Definition catchKnownInstanceOf (this : Result) (type : Class) (cb : Callback S)
  : Js S Result :=
  Checked.catch_ this (fun error =>
    tag <- getProperty "type" error ;;
    if isString "CHECKED_ERROR" tag then
      known <- getProperty "error" error ;;
      if type known then known' <- getProperty "error" error ;; cb known'
      else ret (VResult this)
    else ret (VResult this)).

(** [Result.wrap(fn)], the function it returns. *)
Definition wrap (fn : list JsVal -> Js S JsVal) (args : list JsVal)
  : Js S Result :=
  try_catch_ (v <- fn args ;; ret (Checked.Ok v))
             (fun e => ret (Checked.ErrUnchecked e)).

(** [Result.fromFunc(fn)] *)
Definition fromFunc (fn : Js S JsVal) : Js S Result :=
  try_catch_ (v <- fn ;; ret (Checked.toResult v))
             (fun e => ret (Checked.ErrUnchecked e)).

End Methods.

Section Nested.
Variable W : Type.
Local Open Scope js_scope.

(** The generator body written without [Result.run]: every [yield*]
    becomes a [then_] whose callback is the rest of the body. *)
Fixpoint nestedThen (c : code W) : Js W JsVal :=
  match c with
  | Complete (CNormal _) => ret VUndefined
  | Complete (CReturn v) => ret v
  | Complete (CThrow e) => throw e
  | Yield y k =>
      r <- Checked.then_ (Checked.toResult y)
             (fun a => nestedThen (k (RNext a))) None ;;
      ret (VResult r)
  | Mutate f next => fun w => nestedThen next (f w)
  | Inspect k => fun w => nestedThen (k w) w
  end.

End Nested.

End CheckedMethods.

(** Generator bodies whose [yield]s are not wrapped in [try] blocks: when
    asked to return at a [yield], the body returns at once. *)
Inductive straightLine {W : Type} : code W -> Prop :=
| SL_complete (c : Completion) : straightLine (Complete c)
| SL_yield (y : JsVal) (k : Resumption -> code W) :
    (forall v, k (RReturn v) = Complete (CReturn v)) ->
    (forall v, straightLine (k (RNext v))) ->
    straightLine (Yield y k)
| SL_mutate (f : W -> W) (next : code W) :
    straightLine next -> straightLine (Mutate f next)
| SL_inspect (k : W -> code W) :
    (forall w, straightLine (k w)) -> straightLine (Inspect k).

(* ================================================================== *)
(** ** The remaining operations of the two [AsyncResult.ts] *)

(** [ResultPromisable]: what a callback of an [AsyncResult] may return and
    what the function [AsyncResult] accepts -- a value or Result, an
    AsyncResult, or a promise of either. *)
Inductive ResultPromisable : Type :=
| Plain (v : JsVal)
| AnAsyncResult (a : Async.AsyncResult)
| APromise (p : Promise JsVal)
| APromiseOfAsyncResult (p : Promise Async.AsyncResult).

(** [toResultPromise(it)], the same text in both files: [await it]; a
    Result is kept, an AsyncResult gives its [resultPromise], anything else
    is wrapped in [Ok].  Awaiting a rejected promise rejects. *)
Definition toResultPromise (it : ResultPromisable) : Promise Result :=
  match it with
  | Plain v => Async.toResultPromise (Fulfilled v)
  | AnAsyncResult a => Async.resultPromise a
  | APromise p => Async.toResultPromise p
  | APromiseOfAsyncResult (Fulfilled a) => Async.resultPromise a
  | APromiseOfAsyncResult (Rejected reason) => Rejected reason
  end.

Definition AsyncCallback (S : Type) : Type := JsVal -> Js S ResultPromisable.

(** The promise [then] produces from a handler that returns a promise: it
    follows that promise, and is rejected with what the handler throws. *)
Definition follow {S B : Type} (r : Outcome (Promise B) * S) : Promise B * S :=
  match r with
  | (Returns p, s') => (p, s')
  | (Throws e, s') => (Rejected e, s')
  end.

(** A promise of a Result, seen as a promise of a value. *)
Definition asValuePromise (p : Promise Result) : Promise JsVal :=
  match p with
  | Fulfilled r => Fulfilled (VResult r)
  | Rejected reason => Rejected reason
  end.

(** The design with a separate rejection channel. *)
Module AsyncMethods.

(** The function [AsyncResult(arg)]. *)
Definition AsyncResult_ (arg : ResultPromisable) : Async.AsyncResult :=
  Async.MkAsyncResult (toResultPromise arg).

Section Methods.
Context {S : Type}.
Local Open Scope js_scope.

(** [AsyncResult.fromFunc(arg)] is [AsyncResult(arg())]. *)
Definition fromFunc (arg : Js S ResultPromisable) : Js S Async.AsyncResult :=
  it <- arg ;; ret (AsyncResult_ it).

(** [valueOrReject()] *)
Definition valueOrReject (this : Async.AsyncResult) : S -> Promise JsVal * S :=
  Async.promise_then (Async.resultPromise this)
    (fun result => Simple.valueOrThrow result) None.

Definition then_ (this : Async.AsyncResult) (okCb : AsyncCallback S)
    (errCb rejectionCb : option (AsyncCallback S))
  : S -> Async.AsyncResult * S :=
  fun s =>
    let (p, s') :=
      match Async.resultPromise this with
      | Fulfilled result =>
          follow
            ((if negb (isOk result) then
                match errCb with
                | Some errCb =>
                    it <- errCb (value result) ;; ret (toResultPromise it)
                | None => ret (Fulfilled result)
                end
              else it <- okCb (value result) ;; ret (toResultPromise it)) s)
      | Rejected error =>
          match rejectionCb with
          | Some rejectionCb =>
              follow ((it <- rejectionCb error ;; ret (toResultPromise it)) s)
          | None => (Rejected error, s)
          end
      end in
    (Async.MkAsyncResult p, s').

Definition catch_ (this : Async.AsyncResult) (errCb : AsyncCallback S)
    (rejectionCb : option (AsyncCallback S))
  : S -> Async.AsyncResult * S :=
  fun s =>
    let (p, s') :=
      match Async.resultPromise this with
      | Fulfilled result =>
          follow
            ((if isOk result then ret (Fulfilled result)
              else it <- errCb (value result) ;; ret (toResultPromise it)) s)
      | Rejected error =>
          match rejectionCb with
          | None => (Rejected error, s)
          | Some rejectionCb =>
              follow ((it <- rejectionCb error ;; ret (toResultPromise it)) s)
          end
      end in
    (Async.MkAsyncResult p, s').

Definition catchInstanceOf (this : Async.AsyncResult) (type : Class)
    (errCb : AsyncCallback S) (rejectionCb : option (AsyncCallback S))
  : S -> Async.AsyncResult * S :=
  catch_ this
    (fun error =>
       if type error then errCb error
       else ret (Plain (VResult (MkResult false error))))
    rejectionCb.

(** [finally_(cb)]: the callback [fn] is an async function, so what [cb]
    throws rejects the promise [fn] returns. *)
Definition finally_ (this : Async.AsyncResult) (cb : Js S ResultPromisable)
  : S -> Async.AsyncResult * S :=
  let fn : AsyncCallback S := fun _ s =>
    match cb s with
    | (Returns it, s') =>
        (Returns
           (APromise
              (match toResultPromise it with
               | Fulfilled newResult =>
                   if negb (isOk newResult) then Fulfilled (VResult newResult)
                   else asValuePromise (Async.resultPromise this)
               | Rejected reason => Rejected reason
               end)), s')
    | (Throws e, s') => (Returns (APromise (Rejected e)), s')
    end in
  then_ this fn (Some fn) (Some fn).

End Methods.

Section All.
(** [Promise.all] of the host, for promises of Results. *)
Variable Promise_all : list (Promise Result) -> Promise (list Result).

(** [AsyncResult.all(asyncResults)] *)
Definition all (asyncResults : list Async.AsyncResult) : Async.AsyncResult :=
  AsyncResult_
    (APromise
       (fst (Async.promise_then
               (Promise_all (map Async.resultPromise asyncResults))
               (fun resultValues =>
                  match find (fun it => negb (isOk it)) resultValues with
                  | Some firstError =>
                      ret (VResult (Simple.Err (value firstError)))
                  | None =>
                      ret (VResult (Simple.Ok (VArray (map value resultValues))))
                  end)
               None tt))).

End All.

End AsyncMethods.

(** The checked-error [AsyncResult.ts]: its promise of a Result is kept
    from rejecting by a final [.catch(error => ErrUnchecked(error))]. *)
Module CheckedAsync.

(** [promise.catch((error) => ErrUnchecked(error))] *)
Definition catchUnchecked (p : Promise Result) : Promise Result :=
  match p with
  | Fulfilled r => Fulfilled r
  | Rejected error => Fulfilled (Checked.ErrUnchecked error)
  end.

(** The function [AsyncResult(arg)]. *)
Definition AsyncResult_ (arg : ResultPromisable) : Async.AsyncResult :=
  Async.MkAsyncResult (catchUnchecked (toResultPromise arg)).

Section Methods.
Context {S : Type}.
Local Open Scope js_scope.

Definition valueOrFallback (this : Async.AsyncResult) (getFallback : Callback S)
  : S -> Promise JsVal * S :=
  Async.promise_then (Async.resultPromise this)
    (fun result => Checked.valueOrFallback result getFallback) None.

Definition valueOrThrow (this : Async.AsyncResult) : S -> Promise JsVal * S :=
  Async.promise_then (Async.resultPromise this)
    (fun result => CheckedMethods.valueOrThrow result) None.

(** The handler is an async function: it returns a promise, rejected with
    what the callback throws. *)
Definition then_ (this : Async.AsyncResult) (okCb : AsyncCallback S)
    (errCb : option (AsyncCallback S)) : S -> Async.AsyncResult * S :=
  fun s =>
    let (p, s') :=
      match Async.resultPromise this with
      | Fulfilled result =>
          follow
            ((if negb (isOk result) then
                match errCb with
                | Some errCb =>
                    it <- errCb (value result) ;; ret (toResultPromise it)
                | None => ret (Fulfilled result)
                end
              else it <- okCb (value result) ;; ret (toResultPromise it)) s)
      | Rejected error => (Rejected error, s)
      end in
    (Async.MkAsyncResult (catchUnchecked p), s').

Definition catch_ (this : Async.AsyncResult) (cb : AsyncCallback S)
  : S -> Async.AsyncResult * S :=
  fun s =>
    let (p, s') :=
      match Async.resultPromise this with
      | Fulfilled result =>
          follow
            ((if isOk result then ret (Fulfilled result)
              else it <- cb (value result) ;; ret (toResultPromise it)) s)
      | Rejected error => (Rejected error, s)
      end in
    (Async.MkAsyncResult (catchUnchecked p), s').

(** [error.type === "UNCHECKED_ERROR"
     ? new _Result({ isOk: false, value: error }) : cb(error.error)] *)
Definition catchKnown (this : Async.AsyncResult) (cb : AsyncCallback S)
  : S -> Async.AsyncResult * S :=
  catch_ this (fun error =>
    type <- getProperty "type" error ;;
    if isString "UNCHECKED_ERROR" type then
      ret (Plain (VResult (MkResult false error)))
    else known <- getProperty "error" error ;; cb known).

Definition finally_ (this : Async.AsyncResult) (cb : Js S ResultPromisable)
  : S -> Async.AsyncResult * S :=
  let fn : AsyncCallback S := fun _ s =>
    match cb s with
    | (Returns it, s') =>
        (Returns
           (APromise
              (match toResultPromise it with
               | Fulfilled newResult =>
                   if negb (isOk newResult) then Fulfilled (VResult newResult)
                   else asValuePromise (Async.resultPromise this)
               | Rejected reason => Rejected reason
               end)), s')
    | (Throws e, s') => (Returns (APromise (Rejected e)), s')
    end in
  then_ this fn (Some fn).

(** [getValueOrRejectWithErrorHolder(it)]: the callback wraps the holder
    in one more holder, which [valueOrThrow] then throws away. *)
Definition getValueOrRejectWithErrorHolder (it : Async.AsyncResult)
  : S -> Promise JsVal * S :=
  fun s =>
    let (wrapped, s') :=
      catch_ it
        (fun errorHolder =>
           ret (Plain (VResult
                  (MkResult false (makeCheckedErrorHolder errorHolder))))) s in
    valueOrThrow wrapped s'.

End Methods.

(** [AsyncResult.allSettled(asyncResults)]: the callback reads the
    [value] of every settled record, which a rejected one does not have. *)
Definition allSettled (asyncResults : list Async.AsyncResult)
  : Async.AsyncResult :=
  AsyncResult_
    (APromise
       (fst (Async.promise_then
               (Async.Promise_allSettled (map Async.resultPromise asyncResults))
               (fun settledResults =>
                  ret (VArray
                         (map (fun it => match it with
                                         | StatusFulfilled r => VResult r
                                         | StatusRejected _ => VUndefined
                                         end) settledResults)))
               None tt))).

Section All.
(** [Promise.all] of the host, for promises of values. *)
Variable Promise_all : list (Promise JsVal) -> Promise (list JsVal).

(** [AsyncResult.all(asyncResults)]: a rejection of [Promise.all] carries
    the [ErrorHolder] of a member, from which the [Err] is built again. *)
Definition all (asyncResults : list Async.AsyncResult) : Async.AsyncResult :=
  AsyncResult_
    (APromise
       (match Promise_all
                (map (fun it => fst (getValueOrRejectWithErrorHolder it tt))
                     asyncResults) with
        | Fulfilled resultValues =>
            Fulfilled (VResult (Checked.Ok (VArray resultValues)))
        | Rejected error_ =>
            fst (Async.settle
                   (bind (getProperty "type" error_) (fun type =>
                    bind (getProperty "error" error_) (fun error =>
                    ret (VResult
                           (if isString "UNCHECKED_ERROR" type
                            then Checked.ErrUnchecked error
                            else Checked.Err error)))) tt))
        end)).

End All.

End CheckedAsync.

(** A callback that answers at once, with a value or a Result. *)
Definition immediately {S : Type} (cb : Callback S) : AsyncCallback S :=
  fun v => bind (cb v) (fun out => ret (Plain out)).

(** A [Promise.all] for promises that have settled: the values when all
    are fulfilled, else the rejection that comes first in the list. *)
Fixpoint Promise_all_listOrder {A : Type} (promises : list (Promise A))
  : Promise (list A) :=
  match promises with
  | [] => Fulfilled []
  | Fulfilled r :: rest =>
      match Promise_all_listOrder rest with
      | Fulfilled rs => Fulfilled (r :: rs)
      | Rejected reason => Rejected reason
      end
  | Rejected reason :: _ => Rejected reason
  end.

(** What [thenChain] does, written without the shared [history] array and
    without [then_]: each callback gets the running value and the values
    that came before it; the first [Err] ends the chain. *)
Fixpoint chainFrom {S : Type} (history : list JsVal)
    (cbs : list (@SimpleMethods.ChainCallback S)) (result : Result)
  : Js S Result :=
  match cbs with
  | [] => ret result
  | cb :: cbs' =>
      if isOk result then
        bind (cb (value result) history)
             (fun out => chainFrom (history ++ [value result])%list cbs'
                           (Simple.toResult out))
      else ret result
  end.


(* ================================================================== *)
(** ** What [Result.run] computes, read off the generator

    [drive] says how the body behaves under a runner; the two functions
    below say what each design's [run] makes of it.  On a [yield] of an
    [Err] the runner calls [gen.return], which unwinds the body from that
    [yield]; only a throw during the unwinding changes the outcome. *)

Definition simple_run_outcome {W} (d : Driven W * W) : Outcome Result * W :=
  match d with
  | (Ended (CNormal _), w) => (Returns (Simple.Ok VUndefined), w)
  | (Ended (CReturn v), w) => (Returns (Simple.toResult v), w)
  | (Ended (CThrow e), w) => (Throws e, w)
  | (YieldedErr y k, w) =>
      match exec (k (RReturn y)) w with
      | (Completed (CThrow e), w') => (Throws e, w')
      | (_, w') => (Returns (Simple.toResult y), w')
      end
  end.

Definition checked_run_outcome {W} (d : Driven W * W) : Outcome Result * W :=
  match d with
  | (Ended (CNormal _), w) => (Returns (Checked.Ok VUndefined), w)
  | (Ended (CReturn v), w) => (Returns (Checked.toResult v), w)
  | (Ended (CThrow e), w) => (Returns (Checked.ErrUnchecked e), w)
  | (YieldedErr y k, w) =>
      match exec (k (RReturn y)) w with
      | (Completed (CThrow e), w') => (Returns (Checked.ErrUnchecked e), w')
      | (_, w') => (Returns (Checked.toResult y), w')
      end
  end.

(** A suspension or a completion other than a throw. *)
Definition noThrow {W} (p : Progress W) : Prop :=
  match p with
  | Completed (CThrow _) => False
  | _ => True
  end.

(** The code around a piece of generator code: what follows it, a
    [try]/[catch] it is the try block of, a [try]/[finally] it is the try
    block of. *)
Inductive Frame (W : Type) : Type :=
| InSeq (rest : JsVal -> code W)
| InTryCatch (handler : JsVal -> code W)
| InTryFinally (fin : code W).

Arguments InSeq {W} rest.
Arguments InTryCatch {W} handler.
Arguments InTryFinally {W} fin.

Definition encloseIn {W} (frame : Frame W) (c : code W) : code W :=
  match frame with
  | InSeq rest => seq c rest
  | InTryCatch handler => try_catch c handler
  | InTryFinally fin => try_finally c fin
  end.

(** [c] with the frames around it, the innermost first. *)
Fixpoint enclose {W} (frames : list (Frame W)) (c : code W) : code W :=
  match frames with
  | [] => c
  | frame :: outer => enclose outer (encloseIn frame c)
  end.

(** How [try { ... } finally { ... }] completes when the try block completed
    with [c] and the finally block with [cf]: with [c], unless the finally
    block itself returned or threw. *)
Definition afterFinally (c cf : Completion) : Completion :=
  match cf with
  | CNormal _ => c
  | _ => cf
  end.

(* ================================================================== *)
(** ** The cases of the test suites *)

Definition hiErr : JsVal := VError "Error" "Hi".
Definition failed : JsVal := VError "CustomError" "Failed".

(** The store of the test generators: the flag [finallyRan]. *)
Definition setFlag : code bool := Mutate (fun _ => true) (Complete (CNormal VUndefined)).

(** [function* () { const _x = yield* Ok(42); throw hiErr; }] *)
Definition genThrowAfterYield : code bool :=
  seq (yield_star (VResult (MkResult true (VNum 42))))
      (fun _x => Complete (CThrow hiErr)).

(** The try block [{ yield* err; }]. *)
Definition tryBlockErr (err : Result) : code bool :=
  seq (yield_star (VResult err)) (fun _ => Complete (CNormal VUndefined)).

(** [function* () { try { yield* Err(hiErr); } finally { finallyRan2 = true; } }],
    for the [Err] of the plain or of the checked design. *)
Definition genErrInFinally (err : Result) : code bool :=
  try_finally (tryBlockErr err) setFlag.

(** The try block and the catch block of
    [function* () { try { const x = yield* Ok("42");
      const y = yield* Err(new CustomError("Failed")); return x + y; }
      catch (e) { return undefined; } }]; the catch block also sets the
    flag, to make a call of it visible. *)
Definition tryBlockYieldingErr (err : Result) : code bool :=
  seq (yield_star (VResult (MkResult true (VStr "42")))) (fun x =>
  seq (yield_star (VResult err)) (fun y =>
  Complete (CReturn (VArray [x; y])))).

Definition catchBlock (e : JsVal) : code bool :=
  seq setFlag (fun _ => Complete (CReturn VUndefined)).

Definition genErrInCatch (err : Result) : code bool :=
  try_catch (tryBlockYieldingErr err) catchBlock.

(** [function* () { try { const x = yield* Ok("42"); throw new Error("Hi"); }
      catch (e) { return undefined; } }] *)
Definition genThrowInCatch : code bool :=
  try_catch
    (seq (yield_star (VResult (MkResult true (VStr "42")))) (fun x =>
     Complete (CThrow hiErr)))
    catchBlock.

Definition boom : JsVal := VError "Error" "Error during cleanup".

(** [function* () { try { yield* Err(hiErr); } finally { throw boom; } }] *)
Definition genErrFinallyThrows (err : Result) : code bool :=
  try_finally (tryBlockErr err) (Complete (CThrow boom)).

(** [function* () { try { try { yield* Err(hiErr); } finally { yield* Ok(1); } }
      finally { finallyRan = true; } }]: the inner cleanup suspends the
    generator again. *)
Definition genErrCleanupYields (err : Result) : code bool :=
  try_finally
    (try_finally (tryBlockErr err)
       (seq (yield_star (VResult (MkResult true (VNum 1))))
            (fun _ => Complete (CNormal VUndefined))))
    setFlag.



(** [function* () { finallyRan = false;
      try { try { yield* err; } finally { finallyRan = true; } rest; }
      finally { } }] *)
Definition genNestedErrInFinally (err : Result) : code bool :=
  Mutate (fun _ => false)
    (try_finally
       (seq (try_finally (tryBlockErr err) setFlag)
            (fun u => Complete (CNormal u)))
       (Complete (CNormal VUndefined))).


(** [function* () { try { try { yield* err; } finally { finallyRan = true; } }
      finally { throw boom; } }] *)
Definition genErrOuterFinallyThrows (err : Result) : code bool :=
  try_finally (try_finally (tryBlockErr err) setFlag) (Complete (CThrow boom)).

(** [function* () { const x = yield* Ok(42); const y = yield* Ok(43);
      return [x, y]; }] *)
Definition genTwoYields : code bool :=
  seq (yield_star (VResult (MkResult true (VNum 42)))) (fun x =>
  seq (yield_star (VResult (MkResult true (VNum 43)))) (fun y =>
  Complete (CReturn (VArray [x; y])))).

Example simple_run_two_yields :
  Simple.run 5 genTwoYields false
  = Some (Returns (Simple.Ok (VArray [VNum 42; VNum 43])), false).
Proof. reflexivity. Qed.

Example simple_run_throw_escapes :
  Simple.run 5 genThrowAfterYield false = Some (Throws hiErr, false).
Proof. reflexivity. Qed.

Example checked_run_throw_captured :
  Checked.run 5 genThrowAfterYield false
  = Some (Returns (Checked.ErrUnchecked hiErr), false).
Proof. reflexivity. Qed.

Example simple_run_catch_of_thrown :
  Simple.run 5 genThrowInCatch false = Some (Returns (Simple.Ok VUndefined), true).
Proof. reflexivity. Qed.

Example simple_run_err_in_catch :
  Simple.run 5 (genErrInCatch (Simple.Err failed)) false
  = Some (Returns (Simple.Err failed), false).
Proof. reflexivity. Qed.

Example checked_run_err_in_catch :
  Checked.run 5 (genErrInCatch (Checked.Err failed)) false
  = Some (Returns (Checked.Err failed), false).
Proof. reflexivity. Qed.

Example simple_run_err_in_finally :
  Simple.run 5 (genErrInFinally (Simple.Err hiErr)) false
  = Some (Returns (Simple.Err hiErr), true).
Proof. reflexivity. Qed.

Example checked_run_err_in_finally :
  Checked.run 5 (genErrInFinally (Checked.Err hiErr)) false
  = Some (Returns (Checked.Err hiErr), true).
Proof. reflexivity. Qed.

Example run_no_yields :
  Checked.run 5 (Complete (CReturn (VNum 85))) tt
  = Some (Returns (Checked.Ok (VNum 85)), tt).
Proof. reflexivity. Qed.

Example all_of_oks :
  Checked.all [Checked.Ok (VNum 1); Checked.Ok (VNum 2); Checked.Ok (VNum 3)]
  = Checked.Ok (VArray [VNum 1; VNum 2; VNum 3]).
Proof. reflexivity. Qed.

Example all_first_err :
  Checked.all [Checked.Ok (VNum 1); Checked.Err failed; Checked.Err hiErr]
  = Checked.Err failed.
Proof. reflexivity. Qed.

Example any_first_ok :
  Checked.any [Checked.Err failed; Checked.Ok (VNum 1); Checked.Ok (VNum 2)]
  = Checked.Ok (VNum 1).
Proof. reflexivity. Qed.

Example any_all_errs :
  Checked.any [Checked.Err failed; Checked.Err hiErr; Checked.ErrUnchecked hiErr]
  = Checked.Err (VAggregateError
      [makeCheckedErrorHolder failed; makeCheckedErrorHolder hiErr;
       makeUncheckedErrorHolder hiErr]).
Proof. reflexivity. Qed.

Example allSettled_three_channels :
  Async.allSettled
    [Async.AsyncResult_ (Fulfilled (VNum 1));
     Async.AsyncResult_ (Fulfilled (VResult (Simple.Err hiErr)));
     Async.AsyncResult_ (Rejected hiErr)]
  = Async.MkAsyncResult (Fulfilled (Simple.Ok (VArray
      [VObject [("type", VStr "ok"); ("value", VNum 1)];
       VObject [("type", VStr "err"); ("value", hiErr)];
       VObject [("type", VStr "rejection"); ("value", hiErr)]]))).
Proof. reflexivity. Qed.

(* ================================================================== *)
(** ** Facts about the monad and the lists *)

Lemma bind_ret_l {S A B} (a : A) (f : A -> Js S B) (s : S) :
  bind (ret a) f s = f a s.
Proof. reflexivity. Qed.

Lemma bind_bind {S A B C} (m : Js S A) (f : A -> Js S B) (g : B -> Js S C) (s : S) :
  bind (bind m f) g s = bind m (fun a => bind (f a) g) s.
Proof.
  unfold bind. destruct (m s) as [[a | e] s']; reflexivity.
Qed.

Lemma bind_ext {S A B} (m : Js S A) (f g : A -> Js S B) (s : S) :
  (forall a s', f a s' = g a s') -> bind m f s = bind m g s.
Proof.
  intros Hfg. unfold bind. destruct (m s) as [[a | e] s']; auto.
Qed.

Lemma bind_cong_l {S A B} (m m' : Js S A) (f : A -> Js S B) (s : S) :
  m s = m' s -> bind m f s = bind m' f s.
Proof.
  intros Hm. unfold bind. now rewrite Hm.
Qed.

Lemma result_eta (r : Result) : MkResult (isOk r) (value r) = r.
Proof. destruct r; reflexivity. Qed.

Lemma simple_toResult_self (r : Result) : Simple.toResult (VResult r) = r.
Proof. apply result_eta. Qed.

Lemma all_loop_find (okValues : list JsVal) (results : list Result) :
  Checked.all_loop okValues results =
  match find (fun r => negb (isOk r)) results with
  | Some err => err
  | None => Checked.Ok (VArray (okValues ++ map value results))
  end.
Proof.
  revert okValues.
  induction results as [| r rest IH]; intros okValues; simpl.
  - now rewrite app_nil_r.
  - destruct (isOk r); simpl.
    + rewrite IH. now rewrite <- app_assoc.
    + reflexivity.
Qed.


Lemma find_not_ok_none_iff (results : list Result) :
  find (fun r => negb (isOk r)) results = None
  <-> Forall (fun r => isOk r = true) results.
Proof.
  induction results as [| r rest IH]; simpl.
  - split; auto.
  - destruct (isOk r) eqn:Hr; simpl.
    + rewrite IH. split; intros H.
      * constructor; assumption.
      * now inversion H.
    + split; intros H; [discriminate |].
      inversion H; congruence.
Qed.


Lemma c_loop_snoc {S} (restFns : list (@Checked.ResultFn S))
    (fn : Checked.ResultFn) (result : Result) (s : S) :
  Checked.c_loop (restFns ++ [fn]) result s =
  bind (Checked.c_loop restFns result)
       (fun r => Checked.then_ r (Checked.asCallback fn) None) s.
Proof.
  revert result s.
  induction restFns as [| f fs IH]; intros result s; simpl.
  - unfold bind, ret.
    destruct (Checked.then_ result (Checked.asCallback fn) None s) as [[r | e] s'];
      reflexivity.
  - rewrite bind_bind. apply bind_ext. intros r s'. apply IH.
Qed.

(* ================================================================== *)
(** ** The combinators *)

(** C2.  Checked-error design: when the callback that [then_], [catch_] or
    [finally_] invokes throws [v], the combinator does not throw; it returns
    an [Err] ([isOk] is [false]) whose holder is unchecked and holds exactly
    [v].  [okCb] is the
    callback [then_] calls on an Ok, [errCb] the one it calls on an Err, [cb]
    the one [catch_] calls on an Err, [cleanup] the one [finally_] calls on
    any Result. *)
Theorem callback_throw_becomes_unchecked_err
    {S : Type} (x h v : JsVal) (okCb errCb cb : Callback S)
    (cleanup : Js S JsVal) (s s' : S)
    (HokCb : okCb x s = (Throws v, s'))
    (HerrCb : errCb h s = (Throws v, s'))
    (Hcb : cb h s = (Throws v, s'))
    (Hcleanup : cleanup s = (Throws v, s')) :
  (forall other,
     Checked.then_ (MkResult true x) okCb other s
     = (Returns (Checked.ErrUnchecked v), s'))
  /\ (forall other,
        Checked.then_ (MkResult false h) other (Some errCb) s
        = (Returns (Checked.ErrUnchecked v), s'))
  /\ Checked.catch_ (MkResult false h) cb s
     = (Returns (Checked.ErrUnchecked v), s')
  /\ (forall r : Result,
        Checked.finally_ r cleanup s = (Returns (Checked.ErrUnchecked v), s'))
  /\ isOk (Checked.ErrUnchecked v) = false
  /\ isUncheckedErrorHolder (value (Checked.ErrUnchecked v)) = true
  /\ value (Checked.ErrUnchecked v) = VErrorHolder UNCHECKED_ERROR v.
Proof.
  repeat split.
  - intros other. unfold Checked.then_, try_catch_, bind; simpl. now rewrite HokCb.
  - intros other. unfold Checked.then_, try_catch_, bind; simpl. now rewrite HerrCb.
  - unfold Checked.catch_, try_catch_, bind; simpl. now rewrite Hcb.
  - intros r. unfold Checked.finally_, Checked.then_, try_catch_, bind.
    destruct (isOk r); now rewrite Hcleanup.
Qed.

Lemma callback_throw_becomes_unchecked_err_witness :
  Checked.then_ (MkResult true (VNum 42)) (fun _ => throw hiErr) None tt
  = (Returns (Checked.ErrUnchecked hiErr), tt)
  /\ isOk (Checked.ErrUnchecked hiErr) = false.
Proof.
  split; [| reflexivity].
  apply (@callback_throw_becomes_unchecked_err unit (VNum 42)
           (makeCheckedErrorHolder failed) hiErr
           (fun _ => throw hiErr) (fun _ => throw hiErr) (fun _ => throw hiErr)
           (throw hiErr) tt tt); reflexivity.
Defined.

(** C4.  On an [Err], [then_] without an error callback leaves the store as
    it was whatever [cb] is -- [cb] is not called -- and returns a Result
    equal to the receiver; on an [Ok], [catch_] does the same.  This holds in
    the checked-error design and in the plain one. *)
Theorem then_on_err_and_catch_on_ok_pass_through
    {S : Type} (F Sx : Result) (cb : Callback S) (s : S)
    (HF : isOk F = false) (HS : isOk Sx = true) :
  Checked.then_ F cb None s = (Returns F, s)
  /\ Checked.catch_ Sx cb s = (Returns Sx, s)
  /\ Simple.then_ F cb None s = (Returns F, s)
  /\ Simple.catch_ Sx cb s = (Returns Sx, s).
Proof.
  unfold Checked.then_, Checked.catch_, Simple.then_, Simple.catch_, try_catch_, ret.
  rewrite HF, HS, !simple_toResult_self. auto.
Qed.

Lemma then_on_err_and_catch_on_ok_pass_through_witness :
  Checked.then_ (Checked.Err failed) (fun _ (calls : nat) => (Returns VUndefined, 1 + calls)) None 0
  = (Returns (Checked.Err failed), 0)
  /\ Checked.catch_ (Checked.Ok (VNum 42)) (fun _ (calls : nat) => (Returns VUndefined, 1 + calls)) 0
     = (Returns (Checked.Ok (VNum 42)), 0).
Proof.
  pose proof (@then_on_err_and_catch_on_ok_pass_through nat
    (Checked.Err failed) (Checked.Ok (VNum 42))
    (fun _ (calls : nat) => (Returns VUndefined, 1 + calls)) 0
    eq_refl eq_refl) as H.
  exact (conj (proj1 H) (proj1 (proj2 H))).
Defined.



(** C7.  The function [Result.compose] builds from [f1] and the functions
    after it applies [f1] and then threads the Result through [then_] with
    each later function in order: it equals the chain
    [f1(x).then_(f2)...then_(fn)], for any number of functions, and
    [compose(f1, f2)(x)] is [f1(x).then_(f2)]. *)
Theorem compose_is_then_chain
    {S : Type} (f1 : @Checked.ResultFn S) (restFns : list Checked.ResultFn)
    (x : JsVal) (s : S) :
  Checked.c f1 restFns x s = Checked.thenChained f1 (rev restFns) x s
  /\ (forall f2,
        Checked.c f1 [f2] x s
        = bind (f1 x) (fun r => Checked.then_ r (Checked.asCallback f2) None) s).
Proof.
  split.
  - revert x s.
    induction restFns as [| fn fns IH] using rev_ind; intros x s.
    + simpl. unfold Checked.c, bind, ret; simpl.
      destruct (f1 x s) as [[r | e] s']; reflexivity.
    + rewrite rev_app_distr; simpl.
      unfold Checked.c.
      transitivity
        (bind (bind (f1 x) (Checked.c_loop fns))
              (fun r => Checked.then_ r (Checked.asCallback fn) None) s).
      * rewrite bind_bind. apply bind_ext. intros r s'. apply c_loop_snoc.
      * change (bind (f1 x) (Checked.c_loop fns)) with (Checked.c f1 fns x).
        apply bind_cong_l, IH.
  - intros f2. unfold Checked.c; simpl.
    apply bind_ext. intros r s'. unfold bind.
    destruct (Checked.then_ r (Checked.asCallback f2) None s') as [[r' | e] s''];
      reflexivity.
Qed.


(* ================================================================== *)
(** ** Generator code: how the operations act on [exec] and [drive] *)

Section CodeFacts.
Variable W : Type.
Implicit Types (c body fin : code W) (w : W).

Lemma exec_seq c (rest : JsVal -> code W) w :
  exec (seq c rest) w =
  match exec c w with
  | (Completed (CNormal v), w') => exec (rest v) w'
  | (Completed cmp, w') => (Completed cmp, w')
  | (Suspended y k, w') => (Suspended y (fun r => seq (k r) rest), w')
  end.
Proof.
  revert w. induction c as [cmp | y k IH | f next IH | k IH]; intros w; simpl.
  - destruct cmp; reflexivity.
  - reflexivity.
  - apply IH.
  - apply IH.
Qed.

Lemma exec_try_finally body fin w :
  exec (try_finally body fin) w =
  match exec body w with
  | (Completed cmp, w') => exec (seq fin (fun _ => Complete cmp)) w'
  | (Suspended y k, w') => (Suspended y (fun r => try_finally (k r) fin), w')
  end.
Proof.
  revert w. induction body as [cmp | y k IH | f next IH | k IH]; intros w; simpl;
    auto.
Qed.

Lemma exec_try_catch body (handler : JsVal -> code W) w :
  exec (try_catch body handler) w =
  match exec body w with
  | (Completed (CThrow e), w') => exec (handler e) w'
  | (Completed cmp, w') => (Completed cmp, w')
  | (Suspended y k, w') => (Suspended y (fun r => try_catch (k r) handler), w')
  end.
Proof.
  revert w. induction body as [cmp | y k IH | f next IH | k IH]; intros w; simpl;
    auto.
  destruct cmp; reflexivity.
Qed.

Lemma drive_seq c (rest : JsVal -> code W) w :
  drive (seq c rest) w =
  match drive c w with
  | (Ended (CNormal v), w') => drive (rest v) w'
  | (Ended cmp, w') => (Ended cmp, w')
  | (YieldedErr y k, w') => (YieldedErr y (fun r => seq (k r) rest), w')
  end.
Proof.
  revert w. induction c as [cmp | y k IH | f next IH | k IH]; intros w; simpl;
    auto.
  - destruct cmp; reflexivity.
  - destruct (isErrResult y); auto.
Qed.

Lemma drive_try_finally_err body fin w y k w1 :
  drive body w = (YieldedErr y k, w1) ->
  drive (try_finally body fin) w
  = (YieldedErr y (fun r => try_finally (k r) fin), w1).
Proof.
  revert w. induction body as [cmp | y0 k0 IH | f next IH | k0 IH]; intros w; simpl;
    auto.
  - discriminate.
  - destruct (isErrResult y0); auto.
    intros H. now inversion H.
Qed.

Lemma drive_try_catch_err body (handler : JsVal -> code W) w y k w1 :
  drive body w = (YieldedErr y k, w1) ->
  drive (try_catch body handler) w
  = (YieldedErr y (fun r => try_catch (k r) handler), w1).
Proof.
  revert w. induction body as [cmp | y0 k0 IH | f next IH | k0 IH]; intros w; simpl;
    auto.
  - discriminate.
  - destruct (isErrResult y0); auto.
    intros H. now inversion H.
Qed.

(** A yielded value that is not an [Err] becomes [Ok] of its payload in
    both designs: that is what the runner feeds back. *)
Lemma toResult_not_err (y : JsVal) :
  isErrResult y = false ->
  Simple.toResult y = Simple.Ok (payload y)
  /\ Checked.toResult y = Checked.Ok (payload y).
Proof.
  destruct y as [| | | | | | | | | [ok v]]; simpl; auto.
  destruct ok; simpl; [auto | discriminate].
Qed.

(** Code that behaves alike behaves alike inside the same frames. *)
Lemma exec_encloseIn_cong (frame : Frame W) c c' w w' :
  exec c w = exec c' w' ->
  exec (encloseIn frame c) w = exec (encloseIn frame c') w'.
Proof.
  intros Hc. destruct frame as [rest | handler | fin]; simpl encloseIn.
  - now rewrite !exec_seq, Hc.
  - now rewrite !exec_try_catch, Hc.
  - now rewrite !exec_try_finally, Hc.
Qed.

Lemma exec_enclose_cong (frames : list (Frame W)) :
  forall c c' w w',
    exec c w = exec c' w' ->
    exec (enclose frames c) w = exec (enclose frames c') w'.
Proof.
  induction frames as [| frame outer IH]; intros c c' w w' Hc; simpl.
  - exact Hc.
  - apply IH. now apply exec_encloseIn_cong.
Qed.

(** Code that completes hands its completion to the frames around it. *)
Lemma exec_enclose_completed (frames : list (Frame W)) c w cmp w' :
  exec c w = (Completed cmp, w') ->
  exec (enclose frames c) w = exec (enclose frames (Complete cmp)) w'.
Proof.
  intros Hc. apply exec_enclose_cong. exact Hc.
Qed.

(** A [yield] of an [Err] met inside frames leaves the generator suspended
    inside those frames. *)
Lemma drive_enclose_err (frames : list (Frame W)) :
  forall c w y k w1,
    drive c w = (YieldedErr y k, w1) ->
    drive (enclose frames c) w
    = (YieldedErr y (fun r => enclose frames (k r)), w1).
Proof.
  induction frames as [| frame outer IH]; intros c w y k w1 Hc; simpl.
  - rewrite Hc. reflexivity.
  - apply (IH (encloseIn frame c) w y (fun r => encloseIn frame (k r)) w1).
    destruct frame as [rest | handler | fin]; simpl encloseIn.
    + rewrite drive_seq, Hc. reflexivity.
    + now apply drive_try_catch_err.
    + now apply drive_try_finally_err.
Qed.

(** A runner meets [YieldedErr] only at a [yield] of an [Err]. *)
Lemma drive_yielded_is_err c : forall w y k w1,
  drive c w = (YieldedErr y k, w1) -> isErrResult y = true.
Proof.
  induction c as [cmp | y0 k0 IH | f next IH | k0 IH]; intros w y k w1; simpl.
  - discriminate.
  - destruct (isErrResult y0) eqn:Hy; [| apply IH].
    intros H. inversion H; subst. exact Hy.
  - apply IH.
  - apply IH.
Qed.

End CodeFacts.

(* ================================================================== *)
(** ** [Result.run] terminates and computes the outcome read off the body *)

Section RunFacts.
Variable W : Type.
Implicit Types (c : code W) (w : W) (v : JsVal).

(** Resuming at a [yield] with [next(v)] is starting the rest of the
    body. *)
Lemma checked_run_loop_resume m v (k : Resumption -> code W) w :
  Checked.run_loop m (Checked.Ok v) (MkRunState (SuspendedYield k) false w)
  = Checked.run_loop m (Checked.Ok v)
      (MkRunState (SuspendedStart (k (RNext v))) false w).
Proof. destruct m; reflexivity. Qed.

Lemma simple_run_loop_resume m v (k : Resumption -> code W) w :
  Simple.run_loop m (Simple.Ok v) (MkRunState (SuspendedYield k) false w)
  = Simple.run_loop m (Simple.Ok v)
      (MkRunState (SuspendedStart (k (RNext v))) false w).
Proof. destruct m; reflexivity. Qed.

Lemma checked_run_loop_outcome c : forall w v,
  exists n, forall m, n <= m ->
    exists s',
      Checked.run_loop m (Checked.Ok v) (MkRunState (SuspendedStart c) false w)
      = Some (fst (checked_run_outcome (drive c w)), s')
      /\ world s' = snd (checked_run_outcome (drive c w)).
Proof.
  induction c as [cmp | y k IH | f next IH | k IH]; intros w v.
  - exists 2. intros m Hm.
    destruct m as [| [| m]]; try lia.
    destruct cmp as [u | u | e]; simpl.
    + eexists; split; reflexivity.
    + unfold Checked.then_, Checked.run_callback, try_catch_, bind, onGen; simpl.
      destruct (isErrResult u); simpl; eexists; split; reflexivity.
    + eexists; split; reflexivity.
  - destruct (isErrResult y) eqn:Hy.
    + exists 2. intros m Hm.
      destruct m as [| [| m]]; try lia.
      simpl. rewrite Hy.
      unfold Checked.then_, Checked.run_callback, try_catch_, bind, onGen,
        gen_next, gen_return, resume; simpl. rewrite Hy; simpl.
      destruct (exec (k (RReturn y)) w) as [[[u | u | e] | y' k'] w']; simpl;
        eexists; split; reflexivity.
    + destruct (IH (RNext (payload y)) w (payload y)) as [n Hn].
      exists (S n). intros m Hm.
      destruct m as [| m]; try lia.
      destruct (Hn m ltac:(lia)) as [s' [Hrun Hw]].
      exists s'. simpl drive. rewrite Hy. split; [| exact Hw].
      rewrite <- Hrun, <- checked_run_loop_resume.
      destruct (toResult_not_err y Hy) as [_ Hto].
      simpl.
      unfold Checked.then_, Checked.run_callback, try_catch_, bind, onGen,
        gen_next, gen_return, resume; simpl. rewrite Hy; simpl.
      rewrite Hto. reflexivity.
  - destruct (IH (f w) v) as [n Hn].
    exists n. intros m Hm.
    destruct (Hn m Hm) as [s' [Hrun Hw]].
    exists s'. simpl drive. split; [| exact Hw].
    rewrite <- Hrun. destruct m; reflexivity.
  - destruct (IH w w v) as [n Hn].
    exists n. intros m Hm.
    destruct (Hn m Hm) as [s' [Hrun Hw]].
    exists s'. simpl drive. split; [| exact Hw].
    rewrite <- Hrun. destruct m; reflexivity.
Qed.

Lemma simple_run_loop_outcome c : forall w v,
  exists n, forall m, n <= m ->
    exists s',
      Simple.run_loop m (Simple.Ok v) (MkRunState (SuspendedStart c) false w)
      = Some (fst (simple_run_outcome (drive c w)), s')
      /\ world s' = snd (simple_run_outcome (drive c w)).
Proof.
  induction c as [cmp | y k IH | f next IH | k IH]; intros w v.
  - exists 2. intros m Hm.
    destruct m as [| [| m]]; try lia.
    destruct cmp as [u | u | e]; simpl.
    + eexists; split; reflexivity.
    + unfold Simple.then_, Simple.run_callback, bind, onGen; simpl.
      destruct (isErrResult u); simpl; eexists; split; reflexivity.
    + eexists; split; reflexivity.
  - destruct (isErrResult y) eqn:Hy.
    + exists 2. intros m Hm.
      destruct m as [| [| m]]; try lia.
      simpl. rewrite Hy.
      unfold Simple.then_, Simple.run_callback, bind, onGen,
        gen_next, gen_return, resume; simpl. rewrite Hy; simpl.
      destruct (exec (k (RReturn y)) w) as [[[u | u | e] | y' k'] w']; simpl;
        eexists; split; reflexivity.
    + destruct (IH (RNext (payload y)) w (payload y)) as [n Hn].
      exists (S n). intros m Hm.
      destruct m as [| m]; try lia.
      destruct (Hn m ltac:(lia)) as [s' [Hrun Hw]].
      exists s'. simpl drive. rewrite Hy. split; [| exact Hw].
      rewrite <- Hrun, <- simple_run_loop_resume.
      destruct (toResult_not_err y Hy) as [Hto _].
      simpl.
      unfold Simple.then_, Simple.run_callback, bind, onGen,
        gen_next, gen_return, resume; simpl. rewrite Hy; simpl.
      rewrite Hto. reflexivity.
  - destruct (IH (f w) v) as [n Hn].
    exists n. intros m Hm.
    destruct (Hn m Hm) as [s' [Hrun Hw]].
    exists s'. simpl drive. split; [| exact Hw].
    rewrite <- Hrun. destruct m; reflexivity.
  - destruct (IH w w v) as [n Hn].
    exists n. intros m Hm.
    destruct (Hn m Hm) as [s' [Hrun Hw]].
    exists s'. simpl drive. split; [| exact Hw].
    rewrite <- Hrun. destruct m; reflexivity.
Qed.

(** [Result.run] returns or raises for every generator body, and what it
    does is determined by [drive]. *)
Lemma checked_run_outcome_spec (fn : code W) w :
  exists n, forall m, n <= m ->
    Checked.run m fn w = Some (checked_run_outcome (drive fn w)).
Proof.
  destruct (checked_run_loop_outcome fn w VUndefined) as [n Hn].
  exists n. intros m Hm.
  destruct (Hn m Hm) as [s' [Hrun Hw]].
  unfold Checked.run. rewrite Hrun, Hw.
  now destruct (checked_run_outcome (drive fn w)).
Qed.

Lemma simple_run_outcome_spec (fn : code W) w :
  exists n, forall m, n <= m ->
    Simple.run m fn w = Some (simple_run_outcome (drive fn w)).
Proof.
  destruct (simple_run_loop_outcome fn w VUndefined) as [n Hn].
  exists n. intros m Hm.
  destruct (Hn m Hm) as [s' [Hrun Hw]].
  unfold Simple.run. rewrite Hrun, Hw.
  now destruct (simple_run_outcome (drive fn w)).
Qed.

(** The checked-error design never lets [run] raise. *)
Lemma checked_run_never_raises (fn : code W) w :
  exists n r w', forall m, n <= m ->
    Checked.run m fn w = Some (Returns r, w').
Proof.
  destruct (checked_run_outcome_spec fn w) as [n Hn].
  assert (Hret : exists r w', checked_run_outcome (drive fn w) = (Returns r, w')).
  { unfold checked_run_outcome.
    destruct (drive fn w) as [[[u | u | e] | y k] w0]; eauto.
    destruct (exec (k (RReturn y)) w0) as [[[u | u | e] | y' k'] w']; eauto. }
  destruct Hret as [r [w' Hret]].
  exists n, r, w'. intros m Hm. rewrite (Hn m Hm). now rewrite Hret.
Qed.

End RunFacts.

(* ================================================================== *)
(** ** [Result.run]: thrown exceptions, yielded Errs, cleanup *)




(** C3 (as amended).  Take any generator that, after any number of
    successful yields, yields the Err [err] at a point inside the try block
    of a [try]/[finally] with finally block [fin], with the frames [outer]
    around that statement.  When the early return unwinds the try block from
    that [yield], the finally block runs to its end without throwing, and
    the frames around the statement unwind without throwing, [run] returns
    [err] in both designs, and the store it leaves is the one the finally
    block produced, carried on through the frames around it -- the cleanup
    ran before [run] returned.  The generator's answer to [gen.return] is the
    unwinding of the try block, then [fin], then the frames around. *)
Theorem run_err_in_try_finally_runs_cleanup
    {W : Type} (G : code W) (outer : list (Frame W))
    (inner : Resumption -> code W) (fin : code W)
    (err : Result) (K : Resumption -> code W) (x : JsVal)
    (cf : Completion) (p : Progress W) (w w1 w2 w3 w4 : W)
    (Hyield : drive G w = (YieldedErr (VResult err) K, w1))
    (Hinside : forall r, K r = enclose outer (try_finally (inner r) fin))
    (Hunwind : exec (inner (RReturn (VResult err))) w1
               = (Completed (CReturn x), w2))
    (Hfin : exec fin w2 = (Completed cf, w3))
    (Hcf : @noThrow W (Completed cf))
    (Houter : exec (enclose outer (Complete (afterFinally (CReturn x) cf))) w3
              = (p, w4))
    (Hp : noThrow p) :
  (exists n, forall m, n <= m -> Simple.run m G w = Some (Returns err, w4))
  /\ (exists n, forall m, n <= m -> Checked.run m G w = Some (Returns err, w4))
  /\ isOk err = false
  /\ exec (K (RReturn (VResult err))) w1
     = exec (enclose outer (seq fin (fun _ => Complete (CReturn x)))) w2.
Proof.
  assert (Hstep :
    exec (K (RReturn (VResult err))) w1
    = exec (enclose outer (seq fin (fun _ => Complete (CReturn x)))) w2).
  { rewrite Hinside. apply exec_enclose_cong.
    rewrite exec_try_finally, Hunwind. reflexivity. }
  assert (Hexec : exec (K (RReturn (VResult err))) w1 = (p, w4)).
  { rewrite Hstep, <- Houter. apply exec_enclose_completed.
    rewrite exec_seq, Hfin. destruct cf; reflexivity. }
  assert (Herr : isOk err = false).
  { apply drive_yielded_is_err in Hyield. simpl in Hyield.
    now apply negb_true_iff. }
  repeat split; try assumption.
  - destruct (simple_run_outcome_spec G w) as [n Hn].
    exists n. intros m Hm. rewrite (Hn m Hm), Hyield.
    unfold simple_run_outcome. rewrite Hexec, simple_toResult_self.
    destruct p as [[u | u | e'] | y' k']; simpl in Hp; try contradiction;
      reflexivity.
  - destruct (checked_run_outcome_spec G w) as [n Hn].
    exists n. intros m Hm. rewrite (Hn m Hm), Hyield.
    unfold checked_run_outcome. rewrite Hexec.
    destruct p as [[u | u | e'] | y' k']; simpl in Hp; try contradiction;
      reflexivity.
Qed.

Lemma run_err_in_try_finally_runs_cleanup_witness :
  (exists n, forall m, n <= m ->
     Simple.run m (genNestedErrInFinally (Checked.Err hiErr)) true
     = Some (Returns (Checked.Err hiErr), true))
  /\ (exists n, forall m, n <= m ->
        Checked.run m (genNestedErrInFinally (Checked.Err hiErr)) true
        = Some (Returns (Checked.Err hiErr), true)).
Proof.
  pose proof
    (@run_err_in_try_finally_runs_cleanup bool
       (genNestedErrInFinally (Checked.Err hiErr))
       [InSeq (fun u => Complete (CNormal u));
        InTryFinally (Complete (CNormal VUndefined))]
       (fun r => seq (match r with
                      | RNext u => Complete (CNormal u)
                      | RReturn u => Complete (CReturn u)
                      end)
                     (fun _ => Complete (CNormal VUndefined)))
       setFlag (Checked.Err hiErr)
       (fun r =>
          enclose [InSeq (fun u => Complete (CNormal u));
                   InTryFinally (Complete (CNormal VUndefined))]
            (try_finally
               (seq (match r with
                     | RNext u => Complete (CNormal u)
                     | RReturn u => Complete (CReturn u)
                     end)
                    (fun _ => Complete (CNormal VUndefined)))
               setFlag))
       (VResult (Checked.Err hiErr)) (CNormal VUndefined)
       (Completed (CReturn (VResult (Checked.Err hiErr))))
       true false false true true
       eq_refl (fun r => eq_refl) eq_refl eq_refl I eq_refl I) as H.
  exact (conj (proj1 H) (proj1 (proj2 H))).
Defined.

(** C3 as stated fails when the finally block throws: the generator
    [function* () { try { yield* Err(hiErr); } finally { throw boom; } }]
    yields an Err inside the protected region, and [run] does not return
    that Err: the checked-error design returns [ErrUnchecked(boom)], the
    plain design raises [boom].  And when cleanup code inside the protected
    region yields during the early return, as in [genErrCleanupYields], the
    generator stays suspended there and the outer finally block does not
    run: the flag is still [false] when [run] returns.  And when a finally
    block around the [try]/[finally] throws during the early return, as in
    [genErrOuterFinallyThrows], the inner finally block has run (the flag is
    [true]) and still [run] does not return the yielded Err. *)
Lemma run_err_with_throwing_finally :
  drive (tryBlockErr (Checked.Err hiErr)) false
  = (YieldedErr (VResult (Checked.Err hiErr))
       (fun r => seq (match r with
                      | RNext u => Complete (CNormal u)
                      | RReturn u => Complete (CReturn u)
                      end)
                     (fun _ => Complete (CNormal VUndefined))), false)
  /\ Checked.run 3 (genErrFinallyThrows (Checked.Err hiErr)) false
     = Some (Returns (Checked.ErrUnchecked boom), false)
  /\ Checked.ErrUnchecked boom <> Checked.Err hiErr
  /\ Simple.run 3 (genErrFinallyThrows (Simple.Err hiErr)) false
     = Some (Throws boom, false)
  /\ Checked.run 3 (genErrCleanupYields (Checked.Err hiErr)) false
     = Some (Returns (Checked.Err hiErr), false)
  /\ Checked.run 3 (genErrOuterFinallyThrows (Checked.Err hiErr)) false
     = Some (Returns (Checked.ErrUnchecked boom), true)
  /\ Simple.run 3 (genErrOuterFinallyThrows (Simple.Err hiErr)) false
     = Some (Throws boom, true)
  /\ ~ (exists n, forall m, n <= m -> exists w',
          Checked.run m (genErrFinallyThrows (Checked.Err hiErr)) false
          = Some (Returns (Checked.Err hiErr), w')).
Proof.
  split; [reflexivity |].
  split; [reflexivity |].
  split; [discriminate |].
  split; [reflexivity |].
  split; [reflexivity |].
  split; [reflexivity |].
  split; [reflexivity |].
  intros [n Hn].
  destruct (checked_run_outcome_spec (genErrFinallyThrows (Checked.Err hiErr)) false)
    as [n0 Hn0].
  destruct (Hn (n + n0) ltac:(lia)) as [w' H].
  rewrite (Hn0 (n + n0) ltac:(lia)) in H.
  discriminate H.
Qed.

(* ================================================================== *)
(** ** [AsyncResult] *)

(** C8.  When the AsyncResult settles as an [Err] holding [e],
    [valueOrFallback(onFailure, onRejection)] is the promise of the single
    call [onFailure(e)], run on the store as it was: [onRejection] plays no
    part, it is not called.  When the underlying promise rejects with
    [reason], it is the promise of the single call [onRejection(reason)],
    and [onFailure] is not called. *)
Theorem valueOrFallback_keeps_channels_apart
    {S : Type} (e reason : JsVal) (onFailure onRejection : Callback S) (s : S) :
  Async.valueOrFallback (Async.MkAsyncResult (Fulfilled (Simple.Err e)))
    onFailure (Some onRejection) s
  = Async.settle (onFailure e s)
  /\ Async.valueOrFallback (Async.MkAsyncResult (Rejected reason))
       onFailure (Some onRejection) s
     = Async.settle (onRejection reason s).
Proof. split; reflexivity. Qed.

(** The same with mock callbacks that count their calls: the store is the
    pair of the call counts of [onFailure] and [onRejection]. *)
Example valueOrFallback_call_counts :
  let onFailure : Callback (nat * nat) :=
    fun _ s => (Returns (VStr "fallback value"), (1 + fst s, snd s)) in
  let onRejection : Callback (nat * nat) :=
    fun _ s => (Returns (VStr "rejection value"), (fst s, 1 + snd s)) in
  Async.valueOrFallback (Async.MkAsyncResult (Fulfilled (Simple.Err hiErr)))
    onFailure (Some onRejection) (0, 0)
  = (Fulfilled (VStr "fallback value"), (1, 0))
  /\ Async.valueOrFallback (Async.MkAsyncResult (Rejected hiErr))
       onFailure (Some onRejection) (0, 0)
     = (Fulfilled (VStr "rejection value"), (0, 1)).
Proof. split; reflexivity. Qed.


(* ================================================================== *)
(** ** Further properties of the synchronous combinators *)

Lemma checked_toResult_result (r : Result) : Checked.toResult (VResult r) = r.
Proof. reflexivity. Qed.

Lemma toResult_agree (v : JsVal) : Simple.toResult v = Checked.toResult v.
Proof.
  destruct v; try reflexivity. apply result_eta.
Qed.

Lemma capture_returns {S : Type} (m : Js S Result) (s : S) :
  exists r s', try_catch_ m (fun e => ret (Checked.ErrUnchecked e)) s
               = (Returns r, s').
Proof.
  unfold try_catch_, ret. destruct (m s) as [[r | e] s']; eauto.
Qed.

(** X1.  In the checked-error design no combinator throws, whatever the
    receiver and whatever the callbacks do: [then_], [catch_], [finally_],
    [catchKnown], [catchKnownInstanceOf], the function [Result.wrap] returns,
    and [Result.fromFunc] all return a Result. *)
Theorem checked_combinators_never_throw
    {S : Type} (this : Result) (okCb cb : Callback S)
    (errCb : option (Callback S)) (cleanup : Js S JsVal) (type : Class)
    (fn : list JsVal -> Js S JsVal) (args : list JsVal) (s : S) :
  (exists r s', Checked.then_ this okCb errCb s = (Returns r, s'))
  /\ (exists r s', Checked.catch_ this cb s = (Returns r, s'))
  /\ (exists r s', Checked.finally_ this cleanup s = (Returns r, s'))
  /\ (exists r s', CheckedMethods.catchKnown this cb s = (Returns r, s'))
  /\ (exists r s',
        CheckedMethods.catchKnownInstanceOf this type cb s = (Returns r, s'))
  /\ (exists r s', CheckedMethods.wrap fn args s = (Returns r, s'))
  /\ (exists r s', CheckedMethods.fromFunc cleanup s = (Returns r, s')).
Proof.
  repeat split; apply capture_returns.
Qed.

Lemma checked_then_assoc {S : Type} (r : Result)
    (f g : @Checked.ResultFn S) (s : S) :
  bind (Checked.then_ r (Checked.asCallback f) None)
       (fun r1 => Checked.then_ r1 (Checked.asCallback g) None) s
  = Checked.then_ r
      (Checked.asCallback
         (fun x => bind (f x)
                     (fun r1 => Checked.then_ r1 (Checked.asCallback g) None)))
      None s.
Proof.
  unfold Checked.then_ at 1 3, Checked.asCallback at 1 3, try_catch_, bind, ret.
  destruct (isOk r) eqn:Hr.
  - destruct (f (value r) s) as [[r1 | e] s1]; simpl.
    + destruct (Checked.then_ r1 (Checked.asCallback g) None s1)
        as [[r2 | e] s2] eqn:H2; simpl; [reflexivity |].
      destruct (capture_returns
                  (if isOk r1
                   then bind (Checked.asCallback g (value r1))
                          (fun it => ret (Checked.toResult it))
                   else ret r1) s1) as [r' [s' H]].
      unfold Checked.then_ in H2. congruence.
    + reflexivity.
  - unfold Checked.then_, try_catch_, ret. rewrite Hr. reflexivity.
Qed.

Lemma simple_then_assoc {S : Type} (r : Result)
    (f g : @SimpleMethods.ResultFn S) (s : S) :
  bind (Simple.then_ r (SimpleMethods.asCallback f) None)
       (fun r1 => Simple.then_ r1 (SimpleMethods.asCallback g) None) s
  = Simple.then_ r
      (SimpleMethods.asCallback
         (fun x => bind (f x)
                     (fun r1 => Simple.then_ r1 (SimpleMethods.asCallback g) None)))
      None s.
Proof.
  unfold Simple.then_ at 1 3, SimpleMethods.asCallback at 1 3, bind, ret.
  destruct (isOk r) eqn:Hr.
  - destruct (f (value r) s) as [[r1 | e] s1]; simpl; [| reflexivity].
    rewrite result_eta.
    destruct (Simple.then_ r1 (SimpleMethods.asCallback g) None s1)
      as [[r2 | e] s2]; simpl; [| reflexivity].
    now rewrite result_eta.
  - simpl. rewrite result_eta.
    unfold Simple.then_, ret. rewrite Hr, simple_toResult_self. reflexivity.
Qed.

(** X2.  [then_] is associative over Result-returning functions, in both
    designs: [r.then_(f).then_(g)] is [r.then_(x => f(x).then_(g))], with the
    same result, the same store and, in the plain design, the same raised
    exception. *)
Theorem then_is_associative
    {S : Type} (r : Result) (f g : JsVal -> Js S Result) (s : S) :
  bind (Checked.then_ r (Checked.asCallback f) None)
       (fun r1 => Checked.then_ r1 (Checked.asCallback g) None) s
  = Checked.then_ r
      (Checked.asCallback
         (fun x => bind (f x)
                     (fun r1 => Checked.then_ r1 (Checked.asCallback g) None)))
      None s
  /\ bind (Simple.then_ r (SimpleMethods.asCallback f) None)
          (fun r1 => Simple.then_ r1 (SimpleMethods.asCallback g) None) s
     = Simple.then_ r
         (SimpleMethods.asCallback
            (fun x => bind (f x)
                        (fun r1 => Simple.then_ r1 (SimpleMethods.asCallback g) None)))
         None s.
Proof.
  split; [apply checked_then_assoc | apply simple_then_assoc].
Qed.

(** X3.  [Result.compose] is associative: composing [f] with the
    composition of [g] and [h] gives the function [compose(f, g, h)]. *)
Theorem compose_is_associative
    {S : Type} (f g h : @Checked.ResultFn S) (x : JsVal) (s : S) :
  Checked.c f [Checked.c g [h]] x s = Checked.c f [g; h] x s.
Proof.
  unfold Checked.c at 1 3. simpl Checked.c_loop.
  apply bind_ext. intros r s'.
  transitivity
    (Checked.then_ r
       (Checked.asCallback
          (fun v => bind (g v)
                      (fun r1 => Checked.then_ r1 (Checked.asCallback h) None)))
       None s').
  - unfold bind at 1, ret.
    assert (Hc : forall v s0,
      Checked.asCallback (Checked.c g [h]) v s0
      = Checked.asCallback
          (fun v => bind (g v)
                      (fun r1 => Checked.then_ r1 (Checked.asCallback h) None))
          v s0).
    { intros v s0. unfold Checked.c. simpl Checked.c_loop.
      set (hc := Checked.asCallback h).
      unfold Checked.asCallback, bind, ret.
      destruct (g v s0) as [[r1 | e] s1]; [| reflexivity].
      destruct (Checked.then_ r1 hc None s1) as [[r2 | e] s2]; reflexivity. }
    unfold Checked.then_, try_catch_, bind, ret.
    destruct (isOk r); [| reflexivity].
    rewrite Hc.
    destruct (Checked.asCallback _ (value r) s') as [[it | e] s1]; reflexivity.
  - rewrite <- checked_then_assoc.
    unfold bind, ret.
    destruct (Checked.then_ r (Checked.asCallback g) None s') as [[r1 | e] s1];
      [| reflexivity].
    destruct (Checked.then_ r1 (Checked.asCallback h) None s1) as [[r2 | e] s2];
      reflexivity.
Qed.

(** X4.  [finally_] calls the cleanup once, on an Ok and on an Err alike.
    When the cleanup returns, the result is the receiver, unless what the
    cleanup returned is an [Err], which then replaces it; the store is the
    one the cleanup left.  Both designs. *)
Theorem finally_keeps_receiver_unless_cleanup_errs
    {S : Type} (this : Result) (cleanup : Js S JsVal) (out : JsVal) (s s' : S)
    (Hcleanup : cleanup s = (Returns out, s')) :
  Checked.finally_ this cleanup s
  = (Returns (if isErrResult out then Checked.toResult out else this), s')
  /\ SimpleMethods.finally_ this cleanup s
     = (Returns (if isErrResult out then Checked.toResult out else this), s').
Proof.
  unfold Checked.finally_, SimpleMethods.finally_, Checked.then_, Simple.then_,
    try_catch_, bind, ret.
  split; destruct (isOk this); rewrite Hcleanup;
    destruct (isErrResult out); simpl; rewrite ?result_eta, ?toResult_agree;
    reflexivity.
Qed.

Lemma finally_keeps_receiver_unless_cleanup_errs_witness :
  Checked.finally_ (Checked.Ok (VNum 42))
    (fun calls : nat => (Returns (VNum 84), 1 + calls)) 0
  = (Returns (Checked.Ok (VNum 42)), 1)
  /\ SimpleMethods.finally_ (Checked.Ok (VNum 42))
       (fun calls : nat => (Returns (VNum 84), 1 + calls)) 0
     = (Returns (Checked.Ok (VNum 42)), 1).
Proof.
  apply (@finally_keeps_receiver_unless_cleanup_errs nat (Checked.Ok (VNum 42))
           (fun calls : nat => (Returns (VNum 84), 1 + calls)) (VNum 84) 0 1).
  reflexivity.
Defined.

(** X5.  In the plain design a callback's exception is not captured: when
    the callback that [then_], [catch_], [catchInstanceOf] or [finally_]
    invokes throws [v], the combinator raises [v], with the store the
    callback left. *)
Theorem simple_callback_throw_propagates
    {S : Type} (x h v : JsVal) (okCb errCb cb : Callback S)
    (cleanup : Js S JsVal) (type : Class) (s s' : S)
    (HokCb : okCb x s = (Throws v, s'))
    (HerrCb : errCb h s = (Throws v, s'))
    (Hcb : cb h s = (Throws v, s'))
    (Htype : type h = true)
    (Hcleanup : cleanup s = (Throws v, s')) :
  (forall other, Simple.then_ (MkResult true x) okCb other s = (Throws v, s'))
  /\ (forall other,
        Simple.then_ (MkResult false h) other (Some errCb) s = (Throws v, s'))
  /\ Simple.catch_ (MkResult false h) cb s = (Throws v, s')
  /\ SimpleMethods.catchInstanceOf (MkResult false h) type cb s = (Throws v, s')
  /\ (forall r : Result, SimpleMethods.finally_ r cleanup s = (Throws v, s')).
Proof.
  repeat split.
  - intros other. unfold Simple.then_, bind; simpl. now rewrite HokCb.
  - intros other. unfold Simple.then_, bind; simpl. now rewrite HerrCb.
  - unfold Simple.catch_, bind; simpl. now rewrite Hcb.
  - unfold SimpleMethods.catchInstanceOf, Simple.catch_, bind; simpl.
    now rewrite Htype, Hcb.
  - intros r. unfold SimpleMethods.finally_, Simple.then_, bind.
    destruct (isOk r); now rewrite Hcleanup.
Qed.

Lemma simple_callback_throw_propagates_witness :
  Simple.then_ (MkResult true (VNum 42)) (fun _ => throw hiErr) None tt
  = (Throws hiErr, tt).
Proof.
  apply (@simple_callback_throw_propagates unit (VNum 42) failed hiErr
           (fun _ => throw hiErr) (fun _ => throw hiErr) (fun _ => throw hiErr)
           (throw hiErr) (fun _ => true) tt tt); reflexivity.
Defined.

(** X6.  [catchKnown] hands only known errors to the callback.  An
    unchecked [Err] and an [Ok] come back as they are and the callback is not
    called (the store is untouched); a checked [Err] holding [e] gives what
    [Ok(e).then_(cb)] gives: the callback gets [e] itself, not the
    holder. *)
Theorem catchKnown_handles_only_checked_errors
    {S : Type} (x e : JsVal) (cb : Callback S) (s : S) :
  CheckedMethods.catchKnown (Checked.ErrUnchecked e) cb s
  = (Returns (Checked.ErrUnchecked e), s)
  /\ CheckedMethods.catchKnown (Checked.Ok x) cb s = (Returns (Checked.Ok x), s)
  /\ CheckedMethods.catchKnown (Checked.Err e) cb s
     = Checked.then_ (Checked.Ok e) cb None s.
Proof. repeat split. Qed.

(** X7.  [catchKnownInstanceOf] calls the callback exactly on a checked
    [Err] whose error is an instance of the class, and then gives what
    [Ok(e).then_(cb)] gives.  A checked [Err] of another class, an unchecked
    [Err] (even one holding an instance of the class) and an [Ok] come back as
    they are, with the store untouched.  The plain design's [catchInstanceOf]
    does the same on its [Err]s. *)
Theorem catchInstanceOf_dispatches_on_class
    {S : Type} (x e : JsVal) (type : Class) (cb : Callback S) (s : S) :
  CheckedMethods.catchKnownInstanceOf (Checked.Err e) type cb s
  = (if type e then Checked.then_ (Checked.Ok e) cb None s
     else (Returns (Checked.Err e), s))
  /\ CheckedMethods.catchKnownInstanceOf (Checked.ErrUnchecked e) type cb s
     = (Returns (Checked.ErrUnchecked e), s)
  /\ CheckedMethods.catchKnownInstanceOf (Checked.Ok x) type cb s
     = (Returns (Checked.Ok x), s)
  /\ SimpleMethods.catchInstanceOf (Simple.Err e) type cb s
     = (if type e then Simple.then_ (Simple.Ok e) cb None s
        else (Returns (Simple.Err e), s))
  /\ SimpleMethods.catchInstanceOf (Simple.Ok x) type cb s
     = (Returns (Simple.Ok x), s).
Proof.
  repeat split.
  - unfold CheckedMethods.catchKnownInstanceOf, Checked.catch_, Checked.then_,
      try_catch_, bind, ret; simpl.
    destruct (type e); reflexivity.
  - unfold SimpleMethods.catchInstanceOf, Simple.catch_, Simple.then_; simpl.
    destruct (type e); reflexivity.
Qed.

(** X8.  Unwrapping undoes wrapping: calling the function [Result.wrap(fn)]
    returns and then [valueOrThrow] on its result returns what [fn] returns,
    throws what [fn] throws, and leaves the store [fn] left. *)
Theorem wrap_then_valueOrThrow_is_fn
    {S : Type} (fn : list JsVal -> Js S JsVal) (args : list JsVal) (s : S) :
  bind (CheckedMethods.wrap fn args) CheckedMethods.valueOrThrow s = fn args s.
Proof.
  unfold CheckedMethods.wrap, CheckedMethods.valueOrThrow, try_catch_, bind, ret.
  destruct (fn args s) as [[v | e] s']; reflexivity.
Qed.

(** X9.  [Result.fromFunc(fn)] is [Ok(undefined).then_(fn)]: a returned
    Result is passed on as it is, any other returned value is wrapped in
    [Ok], a thrown value becomes an unchecked [Err].  [Result.wrap] differs
    on a returned Result, which it wraps in [Ok] once more. *)
Theorem fromFunc_is_then_on_ok
    {S : Type} (fn : Js S JsVal) (s : S) :
  CheckedMethods.fromFunc fn s
  = Checked.then_ (Checked.Ok VUndefined) (fun _ => fn) None s
  /\ CheckedMethods.fromFunc fn s
     = match fn s with
       | (Returns (VResult r), s') => (Returns r, s')
       | (Returns v, s') => (Returns (Checked.Ok v), s')
       | (Throws e, s') => (Returns (Checked.ErrUnchecked e), s')
       end
  /\ CheckedMethods.wrap (fun _ => fn) [] s
     = match fn s with
       | (Returns v, s') => (Returns (Checked.Ok v), s')
       | (Throws e, s') => (Returns (Checked.ErrUnchecked e), s')
       end.
Proof.
  unfold CheckedMethods.fromFunc, CheckedMethods.wrap, Checked.then_,
    try_catch_, bind, ret; simpl.
  repeat split; destruct (fn s) as [[v | e] s']; try reflexivity.
  destruct v; reflexivity.
Qed.

(** X10.  [valueOrThrow] gives back what [then_] captured:
    [Ok(x).then_(cb).valueOrThrow()] throws what [cb(x)] throws and returns
    what [cb(x)] returns, except that a returned Result is unwrapped in
    turn. *)
Theorem then_valueOrThrow_recovers_callback
    {S : Type} (x : JsVal) (cb : Callback S) (other : option (Callback S))
    (s : S) :
  bind (Checked.then_ (Checked.Ok x) cb other) CheckedMethods.valueOrThrow s
  = match cb x s with
    | (Returns (VResult r), s') => CheckedMethods.valueOrThrow r s'
    | o => o
    end.
Proof.
  unfold Checked.then_, CheckedMethods.valueOrThrow, try_catch_, bind, ret; simpl.
  destruct (cb x s) as [[v | e] s']; [| reflexivity].
  destruct v; reflexivity.
Qed.

Lemma chainFrom_err {S : Type} (history : list JsVal)
    (cbs : list (@SimpleMethods.ChainCallback S)) (result : Result) (s : S) :
  isOk result = false -> chainFrom history cbs result s = (Returns result, s).
Proof.
  intros Hr. destruct cbs; simpl; [reflexivity |]. now rewrite Hr.
Qed.

Lemma chainReduce_chainFrom {S : Type}
    (cbs : list (@SimpleMethods.ChainCallback S)) :
  forall (result : Result) (history : list JsVal) (s : S),
    (let (o, hs) := SimpleMethods.chainReduce cbs result (history, s) in
     (o, snd hs))
    = chainFrom history cbs result s.
Proof.
  induction cbs as [| cb cbs IH]; intros result history s; simpl.
  - reflexivity.
  - unfold bind at 1. unfold Simple.then_, SimpleMethods.chainStep, bind, ret.
    destruct (isOk result) eqn:Hr; simpl.
    + destruct (cb (value result) history s) as [[out | e] s']; simpl.
      * apply IH.
      * reflexivity.
    + rewrite result_eta, IH. now apply chainFrom_err.
Qed.

(** X11.  [thenChain] gives every callback the running value and the array
    of the values that came before it, oldest first, and stops calling
    callbacks at the first [Err]: it computes [chainFrom] started with an
    empty history.  In particular on an [Err] receiver no callback runs, and
    with no callbacks the receiver comes back. *)
Theorem thenChain_passes_history_and_short_circuits
    {S : Type} (this : Result) (e : JsVal)
    (cbs : list (@SimpleMethods.ChainCallback S)) (s : S) :
  SimpleMethods.thenChain this cbs s = chainFrom [] cbs this s
  /\ SimpleMethods.thenChain (Simple.Err e) cbs s = (Returns (Simple.Err e), s)
  /\ SimpleMethods.thenChain this [] s = (Returns this, s).
Proof.
  assert (H : forall r, SimpleMethods.thenChain r cbs s = chainFrom [] cbs r s).
  { intros r. unfold SimpleMethods.thenChain. apply chainReduce_chainFrom. }
  repeat split.
  - apply H.
  - rewrite H. now apply chainFrom_err.
Qed.

(** The three-callback case of the test suite: the histories the callbacks
    see are [[]], [[1]] and [[1, 2]]; the store records them. *)
Example thenChain_three_callbacks :
  let record (f : Z -> Z) : @SimpleMethods.ChainCallback (list (list JsVal)) :=
    fun arg history seen =>
      (Returns (match arg with VNum n => VNum (f n) | _ => arg end),
       (seen ++ [history])%list) in
  SimpleMethods.thenChain (Simple.Ok (VNum 1))
    [record (fun n => n + 1)%Z; record (fun n => n * 2)%Z; record (fun n => n - 3)%Z]
    []
  = (Returns (Simple.Ok (VNum 1)), [[]; [VNum 1]; [VNum 1; VNum 2]]).
Proof. reflexivity. Qed.

Lemma simple_all_loop_find (okValues : list JsVal) (results : list Result) :
  SimpleMethods.all_loop okValues results =
  match find (fun r => negb (isOk r)) results with
  | Some err => err
  | None => Simple.Ok (VArray (okValues ++ map value results))
  end.
Proof.
  revert okValues.
  induction results as [| r rest IH]; intros okValues; simpl.
  - now rewrite app_nil_r.
  - destruct (isOk r); simpl; [| reflexivity].
    rewrite IH. now rewrite <- app_assoc.
Qed.

Lemma simple_any_loop_find (errValues : list JsVal) (results : list Result) :
  SimpleMethods.any_loop errValues results =
  match find isOk results with
  | Some ok => ok
  | None => Simple.Err (VAggregateError (errValues ++ map value results))
  end.
Proof.
  revert errValues.
  induction results as [| r rest IH]; intros errValues; simpl.
  - now rewrite app_nil_r.
  - destruct (isOk r); simpl; [reflexivity |].
    rewrite IH. now rewrite <- app_assoc.
Qed.

(** X12.  The plain design's [Result.all] returns the first [Err] of the
    list, else [Ok] of the values in order; its [Result.any] returns the
    first [Ok], else an [Err] whose [AggregateError] lists the error values
    themselves in order.  So [all] is Ok exactly when no element is an [Err],
    and [any] exactly when some element is Ok. *)
Theorem simple_all_and_any (results : list Result) :
  SimpleMethods.all results =
    match find (fun r => negb (isOk r)) results with
    | Some err => err
    | None => Simple.Ok (VArray (map value results))
    end
  /\ SimpleMethods.any results =
       match find isOk results with
       | Some ok => ok
       | None => Simple.Err (VAggregateError (map value results))
       end
  /\ isOk (SimpleMethods.all results) = forallb isOk results
  /\ isOk (SimpleMethods.any results) = existsb isOk results.
Proof.
  assert (Hall := simple_all_loop_find [] results).
  assert (Hany := simple_any_loop_find [] results).
  simpl in Hall, Hany.
  fold (SimpleMethods.all results) in Hall.
  fold (SimpleMethods.any results) in Hany.
  split; [exact Hall |]. split; [exact Hany |].
  rewrite Hall, Hany. clear Hall Hany.
  split.
  - generalize (VArray (map value results)). intros a.
    induction results as [| r rest IH]; simpl; [reflexivity |].
    destruct (isOk r) eqn:Hr; simpl; [exact IH | exact Hr].
  - generalize (VAggregateError (map value results)). intros a.
    induction results as [| r rest IH]; simpl; [reflexivity |].
    destruct (isOk r) eqn:Hr; simpl; [exact Hr | exact IH].
Qed.

(** X13.  [Result.all] on a list with a first element is the nested
    [then_] the documentation of [run] compares it with:
    [all([r, ...rest])] is [r.then_(x => all(rest).then_(xs => [x, ...xs]))]. *)
Theorem all_cons_is_nested_then
    {S : Type} (r : Result) (rest : list Result) (s : S) :
  Checked.then_ r
    (fun x =>
       bind (Checked.then_ (Checked.all rest)
               (fun xs => ret (match xs with
                               | VArray items => VArray (x :: items)
                               | _ => xs
                               end)) None)
            (fun r' => ret (VResult r')))
    None s
  = (Returns (Checked.all (r :: rest)), s).
Proof.
  unfold Checked.all at 2. simpl.
  rewrite all_loop_find.
  assert (Hrest := all_loop_find [] rest). simpl in Hrest.
  fold (Checked.all rest) in Hrest.
  unfold Checked.then_ at 1. unfold try_catch_, bind, ret.
  destruct (isOk r) eqn:Hr; [| reflexivity].
  unfold Checked.then_, try_catch_, bind, ret. rewrite Hrest.
  destruct (find (fun r0 => negb (isOk r0)) rest) as [err |] eqn:Hf.
  - apply find_some in Hf. destruct Hf as [_ Herr].
    apply negb_true_iff in Herr. rewrite Herr. reflexivity.
  - reflexivity.
Qed.

(* ================================================================== *)
(** ** [Result.run] against the two designs and against [then_] *)

Section RunLaws.
Variable W : Type.
Implicit Types (c : code W) (w : W).


Lemma straightLine_drive_checked c :
  straightLine c -> forall w,
  checked_run_outcome (drive c w)
  = Checked.then_ (Checked.Ok VUndefined)
      (fun _ => CheckedMethods.nestedThen c) None w.
Proof.
  induction 1 as [cmp | y k Hret Hnext IH | f next Hnext IH | k Hk IH];
    intros w.
  - destruct cmp; reflexivity.
  - simpl drive. destruct (isErrResult y) eqn:Hy.
    + simpl. rewrite Hret. simpl.
      destruct y as [| | | | | | | | | [ok v]]; try discriminate.
      destruct ok; [discriminate | reflexivity].
    + rewrite IH.
      destruct (toResult_not_err y Hy) as [_ Hto].
      change (CheckedMethods.nestedThen (Yield y k))
        with (bind (Checked.then_ (Checked.toResult y)
                      (fun a => CheckedMethods.nestedThen (k (RNext a))) None)
                   (fun r => ret (VResult r))).
      rewrite Hto.
      unfold Checked.then_, try_catch_, bind, ret; simpl.
      destruct (CheckedMethods.nestedThen (k (RNext (payload y))) w)
        as [[v | e] w']; reflexivity.
  - simpl drive. rewrite IH. reflexivity.
  - simpl drive. rewrite IH. reflexivity.
Qed.

Lemma straightLine_drive_simple c :
  straightLine c -> forall w,
  simple_run_outcome (drive c w)
  = Simple.then_ (Simple.Ok VUndefined)
      (fun _ => SimpleMethods.nestedThen c) None w.
Proof.
  induction 1 as [cmp | y k Hret Hnext IH | f next Hnext IH | k Hk IH];
    intros w.
  - destruct cmp; reflexivity.
  - simpl drive. destruct (isErrResult y) eqn:Hy.
    + simpl. rewrite Hret. simpl.
      destruct y as [| | | | | | | | | [ok v]]; try discriminate.
      destruct ok; [discriminate | reflexivity].
    + rewrite IH.
      destruct (toResult_not_err y Hy) as [Hto _].
      change (SimpleMethods.nestedThen (Yield y k))
        with (bind (Simple.then_ (Simple.toResult y)
                      (fun a => SimpleMethods.nestedThen (k (RNext a))) None)
                   (fun r => ret (VResult r))).
      rewrite Hto.
      unfold Simple.then_, bind, ret; simpl.
      destruct (SimpleMethods.nestedThen (k (RNext (payload y))) w)
        as [[v | e] w']; simpl; rewrite ?result_eta; reflexivity.
  - simpl drive. rewrite IH. reflexivity.
  - simpl drive. rewrite IH. reflexivity.
Qed.

End RunLaws.

(** X14.  For a generator whose [yield*]s are not inside [try] blocks,
    [Result.run] computes what the nested [then_] calls compute that the
    documentation of [run] says it replaces: the same Result, the same store
    and, in the plain design, the same raised exception. *)
Theorem run_is_nested_then
    {W : Type} (fn : code W) (w : W) (Hfn : straightLine fn) :
  (exists n, forall m, n <= m ->
     Checked.run m fn w
     = Some (Checked.then_ (Checked.Ok VUndefined)
               (fun _ => CheckedMethods.nestedThen fn) None w))
  /\ (exists n, forall m, n <= m ->
        Simple.run m fn w
        = Some (Simple.then_ (Simple.Ok VUndefined)
                  (fun _ => SimpleMethods.nestedThen fn) None w)).
Proof.
  split.
  - destruct (checked_run_outcome_spec fn w) as [n Hn].
    exists n. intros m Hm.
    now rewrite (Hn m Hm), (straightLine_drive_checked Hfn).
  - destruct (simple_run_outcome_spec fn w) as [n Hn].
    exists n. intros m Hm.
    now rewrite (Hn m Hm), (straightLine_drive_simple Hfn).
Qed.

Lemma genTwoYields_straightLine : straightLine genTwoYields.
Proof.
  unfold genTwoYields, yield_star; simpl.
  constructor; [reflexivity |]. intros x.
  constructor; [reflexivity |]. intros y.
  constructor.
Qed.

Lemma run_is_nested_then_witness :
  (exists n, forall m, n <= m ->
     Checked.run m genTwoYields false
     = Some (Checked.then_ (Checked.Ok VUndefined)
               (fun _ => CheckedMethods.nestedThen genTwoYields) None false))
  /\ (exists n, forall m, n <= m ->
        Simple.run m genTwoYields false
        = Some (Simple.then_ (Simple.Ok VUndefined)
                  (fun _ => SimpleMethods.nestedThen genTwoYields) None false)).
Proof.
  exact (@run_is_nested_then bool genTwoYields false genTwoYields_straightLine).
Defined.


(* ================================================================== *)
(** ** Further properties of the asynchronous combinators *)

Lemma toResultPromise_asValuePromise (p : Promise Result) :
  Async.toResultPromise (asValuePromise p) = p.
Proof. destruct p; reflexivity. Qed.

Lemma toResultPromise_plain (v : JsVal) :
  toResultPromise (Plain v) = Fulfilled (Checked.toResult v).
Proof. destruct v; reflexivity. Qed.

(** X16.  [then_] of the design with a rejection channel runs exactly one
    callback, chosen by the channel the receiver settled on -- [okCb] on an
    Ok, [errCb] on an Err, [rejectionCb] on a rejection -- and the new
    AsyncResult follows what that callback returns, or is rejected with what
    it throws.  Without the callback for its channel an Err or a rejection
    passes through unchanged and no callback runs. *)
Theorem async_then_runs_the_callback_of_the_channel
    {S : Type} (x e reason : JsVal) (okCb errCb rejectionCb : AsyncCallback S)
    (other1 other2 : option (AsyncCallback S)) (s : S) :
  let after (cb : AsyncCallback S) (arg : JsVal) :=
    let (p, s') := follow (bind (cb arg) (fun it => ret (toResultPromise it)) s) in
    (Async.MkAsyncResult p, s') in
  AsyncMethods.then_ (Async.MkAsyncResult (Fulfilled (Simple.Ok x)))
    okCb other1 other2 s = after okCb x
  /\ AsyncMethods.then_ (Async.MkAsyncResult (Fulfilled (Simple.Err e)))
       okCb (Some errCb) other2 s = after errCb e
  /\ AsyncMethods.then_ (Async.MkAsyncResult (Rejected reason))
       okCb other1 (Some rejectionCb) s = after rejectionCb reason
  /\ AsyncMethods.then_ (Async.MkAsyncResult (Fulfilled (Simple.Err e)))
       okCb None other2 s
     = (Async.MkAsyncResult (Fulfilled (Simple.Err e)), s)
  /\ AsyncMethods.then_ (Async.MkAsyncResult (Rejected reason))
       okCb other1 None s
     = (Async.MkAsyncResult (Rejected reason), s)
  /\ AsyncMethods.catch_ (Async.MkAsyncResult (Rejected reason)) errCb None s
     = (Async.MkAsyncResult (Rejected reason), s)
  /\ AsyncMethods.catch_ (Async.MkAsyncResult (Fulfilled (Simple.Ok x)))
       errCb other1 s
     = (Async.MkAsyncResult (Fulfilled (Simple.Ok x)), s).
Proof.
  intros after. repeat split.
Qed.

(** X17.  Once the receiver has settled as a Result, the asynchronous
    [then_] and [catch_] of the design with a rejection channel do what the
    plain synchronous ones do, for callbacks that answer at once: the new
    AsyncResult is fulfilled with the Result the synchronous method returns,
    and rejected with what it raises. *)
Theorem async_then_agrees_with_sync_then
    {S : Type} (r : Result) (okCb cb : Callback S) (errCb : option (Callback S))
    (rejectionCb : option (AsyncCallback S)) (s : S) :
  AsyncMethods.then_ (Async.MkAsyncResult (Fulfilled r))
    (immediately okCb) (option_map immediately errCb) rejectionCb s
  = (let (p, s') := Async.settle (Simple.then_ r okCb errCb s) in
     (Async.MkAsyncResult p, s'))
  /\ AsyncMethods.catch_ (Async.MkAsyncResult (Fulfilled r))
       (immediately cb) rejectionCb s
     = (let (p, s') := Async.settle (Simple.catch_ r cb s) in
        (Async.MkAsyncResult p, s')).
Proof.
  unfold AsyncMethods.then_, AsyncMethods.catch_, Simple.then_, Simple.catch_,
    immediately, follow, Async.settle, bind, ret; simpl.
  destruct r as [[|] v]; simpl; split.
  - destruct (okCb v s) as [[out | e] s']; simpl; [| reflexivity].
    destruct out; simpl; rewrite ?result_eta; reflexivity.
  - reflexivity.
  - destruct errCb as [errCb |]; simpl; [| reflexivity].
    destruct (errCb v s) as [[out | e] s']; simpl; [| reflexivity].
    destruct out; simpl; rewrite ?result_eta; reflexivity.
  - destruct (cb v s) as [[out | e] s']; simpl; [| reflexivity].
    destruct out; simpl; rewrite ?result_eta; reflexivity.
Qed.

(** X18.  [valueOrReject] merges the two failure channels.  On
    [AsyncResult(p)] for a promise [p] it settles as [p] does, except that a
    Result [p] is fulfilled with is unwrapped: an Ok gives its value, an Err
    rejects with its error. *)
Theorem valueOrReject_unwraps_or_rejects
    {S : Type} (p : Promise JsVal) (s : S) :
  AsyncMethods.valueOrReject (AsyncMethods.AsyncResult_ (APromise p)) s
  = (match p with
     | Fulfilled (VResult r) =>
         if isOk r then Fulfilled (value r) else Rejected (value r)
     | _ => p
     end, s).
Proof.
  destruct p as [v | reason]; [| reflexivity].
  destruct v as [| | | | | | | | | [ok v]]; try reflexivity.
  destruct ok; reflexivity.
Qed.

(** X19.  [finally_] of the design with a rejection channel runs the cleanup
    once whichever of the three channels the receiver settled on.  When the
    cleanup settles as anything but an Err the new AsyncResult settles as the
    receiver did -- a rejection stays a rejection; an Err from the cleanup
    replaces the receiver's outcome; a cleanup that throws or rejects makes
    the new AsyncResult reject. *)
Theorem async_finally_keeps_the_channel
    {S : Type} (this : Async.AsyncResult) (cleanup : Js S ResultPromisable)
    (s : S) :
  AsyncMethods.finally_ this cleanup s
  = match cleanup s with
    | (Returns it, s') =>
        (Async.MkAsyncResult
           (match toResultPromise it with
            | Fulfilled newResult =>
                if negb (isOk newResult) then Fulfilled newResult
                else Async.resultPromise this
            | Rejected reason => Rejected reason
            end), s')
    | (Throws e, s') => (Async.MkAsyncResult (Rejected e), s')
    end.
Proof.
  unfold AsyncMethods.finally_, AsyncMethods.then_, follow, bind, ret.
  destruct this as [[r | reason]]; simpl.
  - destruct (isOk r); simpl;
      destruct (cleanup s) as [[it | e] s']; simpl; try reflexivity;
      destruct (toResultPromise it) as [newResult | reason]; simpl;
      try reflexivity; destruct (isOk newResult); reflexivity.
  - destruct (cleanup s) as [[it | e] s']; simpl; try reflexivity.
    destruct (toResultPromise it) as [newResult | reason']; simpl;
      try reflexivity; destruct (isOk newResult); reflexivity.
Qed.

(** X20.  In the checked-error [AsyncResult.ts] the promise of an
    AsyncResult never rejects: the function [AsyncResult], [then_], [catch_],
    [catchKnown] and [finally_] produce a fulfilled promise whatever their
    argument, receiver and callbacks do -- even from a receiver whose promise
    was rejected. *)
Theorem checked_async_never_rejects
    {S : Type} (arg : ResultPromisable) (this : Async.AsyncResult)
    (okCb cb : AsyncCallback S) (errCb : option (AsyncCallback S))
    (cleanup : Js S ResultPromisable) (s : S) :
  (exists r, Async.resultPromise (CheckedAsync.AsyncResult_ arg) = Fulfilled r)
  /\ (exists r, Async.resultPromise (fst (CheckedAsync.then_ this okCb errCb s))
                = Fulfilled r)
  /\ (exists r, Async.resultPromise (fst (CheckedAsync.catch_ this cb s))
                = Fulfilled r)
  /\ (exists r, Async.resultPromise (fst (CheckedAsync.catchKnown this cb s))
                = Fulfilled r)
  /\ (exists r, Async.resultPromise (fst (CheckedAsync.finally_ this cleanup s))
                = Fulfilled r).
Proof.
  assert (Hcatch : forall p, exists r, CheckedAsync.catchUnchecked p = Fulfilled r).
  { intros [r | e]; simpl; eauto. }
  assert (Hlet : forall (x : Promise Result * S),
    exists r,
      Async.resultPromise
        (fst (let (p, s') := x in
              (Async.MkAsyncResult (CheckedAsync.catchUnchecked p), s')))
      = Fulfilled r).
  { intros [p s']. simpl. apply Hcatch. }
  repeat split; try apply Hlet. apply Hcatch.
Qed.

(** X21.  Once the receiver has settled as a Result, the checked-error
    asynchronous [then_] and [catch_] do what the checked-error synchronous
    ones do, for callbacks that answer at once: the new AsyncResult is
    fulfilled with the Result the synchronous method returns, an exception
    of the callback included, as an unchecked [Err]. *)
Theorem checked_async_then_agrees_with_sync_then
    {S : Type} (r : Result) (okCb cb : Callback S) (errCb : option (Callback S))
    (s : S) :
  CheckedAsync.then_ (Async.MkAsyncResult (Fulfilled r))
    (immediately okCb) (option_map immediately errCb) s
  = (let (p, s') := Async.settle (Checked.then_ r okCb errCb s) in
     (Async.MkAsyncResult p, s'))
  /\ CheckedAsync.catch_ (Async.MkAsyncResult (Fulfilled r)) (immediately cb) s
     = (let (p, s') := Async.settle (Checked.catch_ r cb s) in
        (Async.MkAsyncResult p, s')).
Proof.
  unfold CheckedAsync.then_, CheckedAsync.catch_, Checked.then_, Checked.catch_,
    immediately, follow, Async.settle, try_catch_, bind, ret; simpl.
  split.
  - destruct (isOk r); simpl.
    + destruct (okCb (value r) s) as [[out | e] s']; simpl; [| reflexivity].
      destruct out; reflexivity.
    + destruct errCb as [errCb |]; simpl; [| reflexivity].
      destruct (errCb (value r) s) as [[out | e] s']; simpl; [| reflexivity].
      destruct out; reflexivity.
  - destruct (isOk r); simpl; [reflexivity |].
    destruct (cb (value r) s) as [[out | e] s']; simpl; [| reflexivity].
    destruct out; reflexivity.
Qed.

Lemma Promise_all_listOrder_fulfilled {A : Type} (rs : list A) :
  Promise_all_listOrder (map Fulfilled rs) = Fulfilled rs.
Proof.
  induction rs as [| r rs IH]; simpl; [reflexivity |]. now rewrite IH.
Qed.

Lemma Promise_all_listOrder_rejected {A : Type} (ps : list (Promise A)) :
  (exists reason, In (Rejected reason) ps) ->
  exists reason, In (Rejected reason) ps
                 /\ Promise_all_listOrder ps = Rejected reason.
Proof.
  induction ps as [| [r | e] ps IH]; intros [reason Hin]; simpl in *.
  - contradiction.
  - destruct Hin as [Heq | Hin]; [discriminate |].
    destruct IH as [reason' [Hin' Hall]]; [eauto |].
    exists reason'. rewrite Hall. auto.
  - exists e. auto.
Qed.

(** X22.  [AsyncResult.all], for any [Promise.all] that fulfils with the
    values when every promise is fulfilled and otherwise rejects with the
    reason of a rejected one: when every member settles as a Result, it is
    fulfilled with what the synchronous [Result.all] gives on those Results
    (the first Err in list order, else Ok of the values); when some member
    rejects it is rejected with a member's reason, whatever Errs there
    are. *)
Theorem async_all_is_sync_all_unless_rejected
    (Promise_all : list (Promise Result) -> Promise (list Result))
    (Hfulfilled : forall rs, Promise_all (map Fulfilled rs) = Fulfilled rs)
    (Hrejected : forall ps,
       (exists reason, In (Rejected reason) ps) ->
       exists reason, In (Rejected reason) ps /\ Promise_all ps = Rejected reason)
    (results : list Result) (members : list Async.AsyncResult)
    (Hmember : exists reason, In (Async.MkAsyncResult (Rejected reason)) members) :
  AsyncMethods.all Promise_all
    (map (fun r => Async.MkAsyncResult (Fulfilled r)) results)
  = Async.MkAsyncResult (Fulfilled (SimpleMethods.all results))
  /\ exists reason,
       In (Async.MkAsyncResult (Rejected reason)) members
       /\ AsyncMethods.all Promise_all members
          = Async.MkAsyncResult (Rejected reason).
Proof.
  split.
  - unfold AsyncMethods.all.
    rewrite map_map; simpl. rewrite Hfulfilled.
    assert (Hall := simple_all_loop_find [] results). simpl in Hall.
    fold (SimpleMethods.all results) in Hall. rewrite Hall.
    unfold AsyncMethods.AsyncResult_; simpl.
    destruct (find (fun it => negb (isOk it)) results) as [firstError |] eqn:Hf;
      simpl; [| reflexivity].
    apply find_some in Hf. destruct Hf as [_ Herr].
    destruct firstError as [[|] v]; [discriminate | reflexivity].
  - destruct Hmember as [reason Hin].
    destruct (Hrejected (map Async.resultPromise members)) as [reason' [Hin' Hall]].
    { exists reason. apply in_map_iff.
      exists (Async.MkAsyncResult (Rejected reason)). auto. }
    exists reason'. split.
    + apply in_map_iff in Hin'. destruct Hin' as [[p] [Hp Hm]].
      simpl in Hp. now subst p.
    + unfold AsyncMethods.all. rewrite Hall. reflexivity.
Qed.

Lemma async_all_is_sync_all_unless_rejected_witness :
  AsyncMethods.all (@Promise_all_listOrder Result)
    (map (fun r => Async.MkAsyncResult (Fulfilled r))
         [Simple.Ok (VNum 1); Simple.Err hiErr; Simple.Err failed])
  = Async.MkAsyncResult
      (Fulfilled (SimpleMethods.all
                    [Simple.Ok (VNum 1); Simple.Err hiErr; Simple.Err failed]))
  /\ exists reason,
       In (Async.MkAsyncResult (Rejected reason))
          [Async.MkAsyncResult (Fulfilled (Simple.Err failed));
           Async.MkAsyncResult (Rejected hiErr)]
       /\ AsyncMethods.all (@Promise_all_listOrder Result)
            [Async.MkAsyncResult (Fulfilled (Simple.Err failed));
             Async.MkAsyncResult (Rejected hiErr)]
          = Async.MkAsyncResult (Rejected reason).
Proof.
  apply (@async_all_is_sync_all_unless_rejected (@Promise_all_listOrder Result)
           (@Promise_all_listOrder_fulfilled Result)
           (@Promise_all_listOrder_rejected Result)).
  exists hiErr. simpl. auto.
Defined.

(** X23.  [getValueOrRejectWithErrorHolder] turns an AsyncResult into a
    plain promise without losing the tag of the error: for an Ok it is
    fulfilled with the value, for an Err it is rejected with the Err's own
    [ErrorHolder] (not with the error inside it, as [valueOrThrow] does). *)
Theorem getValueOrRejectWithErrorHolder_rejects_with_the_holder
    {S : Type} (r : Result) (s : S) :
  CheckedAsync.getValueOrRejectWithErrorHolder
    (Async.MkAsyncResult (Fulfilled r)) s
  = ((if isOk r then Fulfilled (value r) else Rejected (value r)), s)
  /\ (forall e,
        CheckedAsync.valueOrThrow
          (Async.MkAsyncResult (Fulfilled (Checked.Err e))) s
        = (Rejected e, s)).
Proof.
  split; [| reflexivity].
  destruct r as [[|] v]; reflexivity.
Qed.

(** X24.  The checked-error [AsyncResult.allSettled] gives, for members
    that settled as Results, an [Ok] holding the array of those Results
    themselves, in input order. *)
Theorem checked_allSettled_returns_the_results (results : list Result) :
  CheckedAsync.allSettled
    (map (fun r => Async.MkAsyncResult (Fulfilled r)) results)
  = Async.MkAsyncResult
      (Fulfilled (Checked.Ok (VArray (map VResult results)))).
Proof.
  unfold CheckedAsync.allSettled, CheckedAsync.AsyncResult_,
    Async.Promise_allSettled; simpl.
  now rewrite !map_map.
Qed.

Lemma getValueOrReject_map (results : list Result) :
  map (fun it => fst (CheckedAsync.getValueOrRejectWithErrorHolder it tt))
      (map (fun r => Async.MkAsyncResult (Fulfilled r)) results)
  = map (fun r => if isOk r then Fulfilled (value r) else Rejected (value r))
        results.
Proof.
  rewrite map_map. apply map_ext. intros [[|] v]; reflexivity.
Qed.

(** X25.  The checked-error [AsyncResult.all], for any [Promise.all] that
    fulfils with the values when every promise is fulfilled and otherwise
    rejects with the reason of a rejected one.  When every member is an Ok,
    it is fulfilled with what the synchronous [Result.all] gives.  When some
    member is an Err (each Err holding an [ErrorHolder]), it is fulfilled
    with the Err of one of the members, rebuilt with the same checked or
    unchecked holder.  It never rejects. *)
Theorem checked_async_all_rebuilds_the_err
    (Promise_all : list (Promise JsVal) -> Promise (list JsVal))
    (Hfulfilled : forall vs, Promise_all (map Fulfilled vs) = Fulfilled vs)
    (Hrejected : forall ps,
       (exists reason, In (Rejected reason) ps) ->
       exists reason, In (Rejected reason) ps /\ Promise_all ps = Rejected reason)
    (oks results : list Result)
    (Hoks : Forall (fun r => isOk r = true) oks)
    (Herr : Exists (fun r => isOk r = false) results)
    (Hholders : Forall (fun r => isOk r = true
                                 \/ exists t e, value r = VErrorHolder t e)
                       results) :
  CheckedAsync.all Promise_all
    (map (fun r => Async.MkAsyncResult (Fulfilled r)) oks)
  = Async.MkAsyncResult (Fulfilled (Checked.all oks))
  /\ exists r,
       In r results /\ isOk r = false
       /\ CheckedAsync.all Promise_all
            (map (fun r => Async.MkAsyncResult (Fulfilled r)) results)
          = Async.MkAsyncResult (Fulfilled r).
Proof.
  split.
  - unfold CheckedAsync.all. rewrite getValueOrReject_map.
    assert (Hmap :
      map (fun r => if isOk r then Fulfilled (value r) else Rejected (value r)) oks
      = map Fulfilled (map value oks)).
    { rewrite map_map. apply map_ext_in. intros r Hin.
      rewrite Forall_forall in Hoks. now rewrite (Hoks r Hin). }
    rewrite Hmap, Hfulfilled.
    assert (Hall := all_loop_find [] oks). simpl in Hall.
    fold (Checked.all oks) in Hall.
    apply find_not_ok_none_iff in Hoks. rewrite Hoks in Hall.
    rewrite Hall. reflexivity.
  - unfold CheckedAsync.all. rewrite getValueOrReject_map.
    apply Exists_exists in Herr. destruct Herr as [r0 [Hin0 Hr0]].
    destruct (Hrejected
                (map (fun r => if isOk r then Fulfilled (value r)
                               else Rejected (value r)) results))
      as [reason [Hin Hall]].
    { exists (value r0). apply in_map_iff. exists r0. now rewrite Hr0. }
    apply in_map_iff in Hin. destruct Hin as [r [Hr Hin]].
    exists r.
    destruct (isOk r) eqn:Hok; [discriminate |].
    inversion Hr; subst reason. clear Hr.
    split; [exact Hin | split; [reflexivity |]].
    rewrite Hall.
    rewrite Forall_forall in Hholders.
    destruct (Hholders r Hin) as [Habs | [t [e He]]]; [congruence |].
    destruct r as [ok v]. simpl in *. subst ok v.
    destruct t; reflexivity.
Qed.

Lemma checked_async_all_rebuilds_the_err_witness :
  CheckedAsync.all (@Promise_all_listOrder JsVal)
    (map (fun r => Async.MkAsyncResult (Fulfilled r))
         [Checked.Ok (VNum 1); Checked.Ok (VNum 2)])
  = Async.MkAsyncResult
      (Fulfilled (Checked.all [Checked.Ok (VNum 1); Checked.Ok (VNum 2)]))
  /\ exists r,
       In r [Checked.Ok (VNum 1); Checked.ErrUnchecked hiErr; Checked.Err failed]
       /\ isOk r = false
       /\ CheckedAsync.all (@Promise_all_listOrder JsVal)
            (map (fun r => Async.MkAsyncResult (Fulfilled r))
                 [Checked.Ok (VNum 1); Checked.ErrUnchecked hiErr;
                  Checked.Err failed])
          = Async.MkAsyncResult (Fulfilled r).
Proof.
  apply (@checked_async_all_rebuilds_the_err (@Promise_all_listOrder JsVal)
           (@Promise_all_listOrder_fulfilled JsVal)
           (@Promise_all_listOrder_rejected JsVal)).
  - repeat constructor.
  - apply Exists_cons_tl, Exists_cons_hd. reflexivity.
  - apply Forall_cons; [left; reflexivity |].
    apply Forall_cons; [right; exists UNCHECKED_ERROR, hiErr; reflexivity |].
    apply Forall_cons; [right; exists CHECKED_ERROR, failed; reflexivity |].
    apply Forall_nil.
Defined.
